(** * ai-tutor: adaptive session and retrieval-augmented response pipeline

    A shallow embedding of the decision logic of
    [app/services/session_service.py], [app/services/teaching_service.py]
    and [app/services/vector_service.py], and the properties of the
    specification checked against it.

    Conventions of the embedding.
    - Python [int] is [Z]; true division [a / b] of two ints is the exact
      rational in [Q]. The float quotient is the correctly rounded value of
      that rational, and the comparisons against 0.8, 3, 5 and 10 made by the
      estimator agree with the exact ones for every message shorter than
      2^50 characters.
    - Python [str] is [string]; a character is a code point below 256.
    - A session dictionary has a fixed set of keys and is a record; the
      JSON round trip through Redis is the identity on it.
    - Redis is a finite map from keys to values with an expiry deadline. Its
      commands do not raise, and the clock does not advance within one call
      of a service method.
    - Supabase is a set of append-only tables, read back in insertion order,
      with an explicit schedule of request outcomes, so that failures of the
      durable sink and of the content store can be exercised.
    - The embedding provider, the language model and the prompt templates are
      parameters; a call that raises is a function that returns [None]. *)

From Stdlib Require Import ZArith QArith Qround String Ascii List Bool Lia.
From Stdlib Require Import Sorting.Sorted Sorting.Permutation.
From stdpp Require Import base option gmap strings list fin_maps.

Import ListNotations.
Open Scope string_scope.
Open Scope Z_scope.

(** ** Python string primitives *)

Module Py.

(** [str.isspace] on one character (code points below 256). *)
Definition is_space (c : ascii) : bool :=
  let n := nat_of_ascii c in
  ((9 <=? n) && (n <=? 13))%nat || ((28 <=? n) && (n <=? 32))%nat
  || (n =? 133)%nat || (n =? 160)%nat.

(** [str.lower] on one character (code points below 256). *)
Definition lower_char (c : ascii) : ascii :=
  let n := nat_of_ascii c in
  if ((65 <=? n) && (n <=? 90))%nat
     || ((192 <=? n) && (n <=? 222) && negb (n =? 215))%nat
  then ascii_of_nat (n + 32) else c.

Fixpoint lower (s : string) : string :=
  match s with
  | EmptyString => EmptyString
  | String c s' => String (lower_char c) (lower s')
  end.

(** [len(s)] *)
Definition len (s : string) : Z := Z.of_nat (String.length s).

(** [s.count(c)] for a one-character needle. *)
Fixpoint count (c : ascii) (s : string) : Z :=
  match s with
  | EmptyString => 0
  | String d s' => (if Ascii.eqb c d then 1 else 0) + count c s'
  end.

(** [c in s] for a one-character needle. *)
Fixpoint contains_char (c : ascii) (s : string) : bool :=
  match s with
  | EmptyString => false
  | String d s' => Ascii.eqb c d || contains_char c s'
  end.

(** [s.startswith(p)] *)
Fixpoint startswith (p s : string) : bool :=
  match p, s with
  | EmptyString, _ => true
  | String _ _, EmptyString => false
  | String a p', String b s' => Ascii.eqb a b && startswith p' s'
  end.

(** [needle in s] *)
Fixpoint contains (needle s : string) : bool :=
  startswith needle s ||
  match s with
  | EmptyString => false
  | String _ s' => contains needle s'
  end.

(** [s.split()]: maximal runs of non-space characters. [cur] holds the
    run being read. *)
Fixpoint split_from (cur : string) (s : string) : list string :=
  match s with
  | EmptyString => match cur with EmptyString => [] | _ => [cur] end
  | String c s' =>
      if is_space c
      then match cur with
           | EmptyString => split_from EmptyString s'
           | _ => cur :: split_from EmptyString s'
           end
      else split_from (cur ++ String c EmptyString) s'
  end.

Definition split (s : string) : list string := split_from EmptyString s.

(** [s.lstrip(chars)], [s.rstrip(chars)], [s.strip(chars)] *)
Fixpoint lstrip (chars : string) (s : string) : string :=
  match s with
  | EmptyString => EmptyString
  | String c s' => if contains_char c chars then lstrip chars s' else s
  end.

Fixpoint rstrip (chars : string) (s : string) : string :=
  match s with
  | EmptyString => EmptyString
  | String c s' =>
      match rstrip chars s' with
      | EmptyString => if contains_char c chars then EmptyString
                       else String c EmptyString
      | r => String c r
      end
  end.

Definition strip (chars : string) (s : string) : string :=
  rstrip chars (lstrip chars s).

(** [s[:n]] for [n >= 0] *)
Definition prefix (n : nat) (s : string) : string := String.substring 0 n s.

(** ["\n".join(parts)] *)
Definition newline : string := String (ascii_of_nat 10) EmptyString.

Fixpoint join (sep : string) (parts : list string) : string :=
  match parts with
  | [] => EmptyString
  | [p] => p
  | p :: rest => p ++ sep ++ join sep rest
  end.

(** [l[-n:]]: the last [n] elements of a list, for [n > 0]. *)
Definition last_n {A} (n : nat) (l : list A) : list A :=
  skipn (length l - n) l.

(** [any(w in s for w in ws)] *)
Definition any_in (ws : list string) (s : string) : bool :=
  existsb (fun w => contains w s) ws.

(** [a > b], [a < b] on exact quotients. *)
Definition Qgtb (a b : Q) : bool := negb (Qle_bool a b).
Definition Qltb (a b : Q) : bool := negb (Qle_bool b a).

(** [a / b] for ints, [b <> 0]. *)
Definition truediv (a b : Z) : Q := (inject_Z a / inject_Z b)%Q.

End Py.

(** ** Data model *)

(** One entry of [conversation_history]: the two dictionaries built in
    [process_student_message], told apart by their ['type'] key. *)
Inductive turn : Type :=
| StudentTurn (message : string) (timestamp : Z)
              (proficiency_level : string) (proficiency_score : Z)
| TeacherTurn (message : string) (timestamp : Z)
              (teaching_strategy : string) (search_results_used : Z).

Definition turn_type (t : turn) : string :=
  match t with
  | StudentTurn _ _ _ _ => "student"
  | TeacherTurn _ _ _ _ => "teacher"
  end.

Definition turn_message (t : turn) : string :=
  match t with
  | StudentTurn m _ _ _ => m
  | TeacherTurn m _ _ _ => m
  end.

(** The session dictionary of [create_session]; [ended_at] and
    [session_duration] are the keys that [end_session] adds. *)
Record session : Type := mkSession {
  session_id : string;
  user_id : string;
  created_at : Z;
  user_data : gmap string string;
  conversation_history : list turn;
  difficulty_level : string;
  subject : string;
  proficiency_score : Z;
  interaction_count : Z;
  initial_proficiency : Z;
  session_status : string;
  ended_at : option Z;
  session_duration : option Q
}.

(** ** Config *)

Module Config.
Definition DEFAULT_DIFFICULTY : string := "intermediate".
Definition DIFFICULTY_LEVELS : list string :=
  ["beginner"; "intermediate"; "advanced"].
Definition TOP_K_RESULTS : nat := 5.
End Config.

(** ** Proficiency estimator ([TeachingService._analyze_proficiency]) *)

Record complexity : Type := mkComplexity {
  vocabulary_diversity : Q;
  average_word_length : Q;
  sentence_count : Z;
  sentence_length : Q;
  grammar_complexity : Z;
  question_complexity : Z
}.

Record proficiency_analysis : Type := mkAnalysis {
  score_change : Z;
  complexity_indicators : complexity
}.

Definition sum_len (words : list string) : Z :=
  fold_right (fun w acc => Py.len w + acc) 0 words.

Definition terminals (message : string) : Z :=
  Py.count "." message + Py.count "!" message + Py.count "?" message.

Definition _analyze_proficiency (message : string) (session_data : session)
  : proficiency_analysis :=
  let words := Py.split message in
  let unique_words : gset string :=
    list_to_set (map (fun word => Py.strip ".,!?" (Py.lower word)) words) in
  let nwords := Z.of_nat (length words) in
  let indicators := {|
    vocabulary_diversity :=
      match words with
      | [] => 0%Q
      | _ => Py.truediv (Z.of_nat (size unique_words)) nwords
      end;
    average_word_length :=
      match words with
      | [] => 0%Q
      | _ => Py.truediv (sum_len words) nwords
      end;
    sentence_count := terminals message + 1;
    sentence_length := Py.truediv nwords (Z.max 1 (terminals message + 1));
    grammar_complexity :=
      Py.count "," message + Py.count ";" message + Py.count ":" message;
    question_complexity := Py.count "?" message
  |} in
  let current_level := difficulty_level session_data in
  let current_score := proficiency_score session_data in
  let score_change :=
    if Py.Qgtb (vocabulary_diversity indicators) 0.8
       && Py.Qgtb (average_word_length indicators) 5
    then
      if String.eqb current_level "beginner" then 5
      else if String.eqb current_level "intermediate" then 3
      else 0
    else if Py.Qgtb (sentence_length indicators) 10
            && String.eqb current_level "beginner" then 3
    else if Py.Qltb (sentence_length indicators) 3
            && String.eqb current_level "advanced" then -2
    else if (nwords <? 3)
            && existsb (String.eqb current_level) ["intermediate"; "advanced"]
    then -1
    else 0 in
  {| score_change := score_change; complexity_indicators := indicators |}.

(** ** The world: Redis, Supabase and the clock *)

(** Rows of the three Supabase tables written by [SessionService]. *)
Record conversation_record : Type := mkConversationRecord {
  cr_session_id : string;
  cr_user_id : string;
  cr_conversation_data : list turn;
  cr_message_count : Z;
  cr_subject : string;
  cr_final_difficulty_level : string;
  cr_final_proficiency_score : Z;
  cr_created_at : Z;
  cr_ended_at : option Z;
  cr_session_duration_minutes : Q
}.

Record summary_record : Type := mkSummaryRecord {
  sr_session_id : string;
  sr_user_id : string;
  sr_subject : string;
  sr_initial_proficiency_score : Z;
  sr_final_proficiency_score : Z;
  sr_proficiency_improvement : Z;
  sr_initial_difficulty_level : string;
  sr_final_difficulty_level : string;
  sr_total_interactions : Z;
  sr_session_duration_minutes : Q;
  sr_created_at : Z;
  sr_ended_at : option Z;
  sr_session_status : string
}.

Record experience_record : Type := mkExperienceRecord {
  er_session_id : string;
  er_user_id : string;
  er_rating : option string;
  er_feedback_text : option string;
  er_usefulness_rating : option string;
  er_difficulty_appropriate : option string;
  er_would_recommend : option string;
  er_improvement_suggestions : option string;
  er_favorite_features : option string;
  er_created_at : Z
}.

(** A row of the [documents] table. *)
Record document : Type := mkDocument {
  doc_content : string;
  doc_metadata : gmap string string;
  doc_embedding : list Q;
  doc_subject : string;
  doc_difficulty_level : string;
  doc_content_type : string
}.

(** What the next Supabase request does: it goes through and returns rows,
    it completes with an empty [data], or the client raises. *)
Inductive outcome : Type := Stored | Rejected | Unreachable.

Record world : Type := mkWorld {
  redis : gmap string (Z * session);   (* key -> (expiry deadline, value) *)
  documents : list document;
  tbl_conversation_history : list conversation_record;
  tbl_session_summaries : list summary_record;
  tbl_user_experiences : list experience_record;
  schedule : list outcome;             (* outcomes of the coming requests *)
  now : Z                              (* [datetime.now()], in seconds *)
}.

Definition with_redis (r : gmap string (Z * session)) (w : world) : world :=
  mkWorld r (documents w) (tbl_conversation_history w)
          (tbl_session_summaries w) (tbl_user_experiences w)
          (schedule w) (now w).

Definition with_schedule (sch : list outcome) (w : world) : world :=
  mkWorld (redis w) (documents w) (tbl_conversation_history w)
          (tbl_session_summaries w) (tbl_user_experiences w) sch (now w).

(** ** Computations that read and write the world and may raise *)

Inductive res (A : Type) : Type :=
| Val (a : A)
| Exn (e : string).
Arguments Val {A} a.
Arguments Exn {A} e.

Definition M (A : Type) : Type := world -> res A * world.

Definition ret {A} (a : A) : M A := fun w => (Val a, w).

Definition raise {A} (e : string) : M A := fun w => (Exn e, w).

Definition bind {A B} (m : M A) (k : A -> M B) : M B :=
  fun w =>
    match m w with
    | (Val a, w') => k a w'
    | (Exn e, w') => (Exn e, w')
    end.

(** [try: m except Exception as e: h e] *)
Definition try_except {A} (m : M A) (h : string -> M A) : M A :=
  fun w =>
    match m w with
    | (Val a, w') => (Val a, w')
    | (Exn e, w') => h e w'
    end.

Notation "x <- m ;; k" := (bind m (fun x => k))
  (at level 100, m at next level, right associativity).
Notation "m ;;; k" := (bind m (fun _ => k))
  (at level 100, right associativity).

Definition datetime_now : M Z := fun w => (Val (now w), w).

(** *** Redis *)

Module Redis.

Definition setex (key : string) (ttl : Z) (value : session) : M unit :=
  fun w => (Val tt, with_redis (<[key := (now w + ttl, value)]> (redis w)) w).

(** A key is served up to and including its deadline and is gone once the
    clock is past it. *)
Definition get (key : string) : M (option session) :=
  fun w =>
    (Val match redis w !! key with
         | Some (deadline, value) =>
             if now w <=? deadline then Some value else None
         | None => None
         end, w).

Definition delete (key : string) : M unit :=
  fun w => (Val tt, with_redis (delete key (redis w)) w).

End Redis.

(** *** Supabase *)

(** [.order('created_at', desc=True)] on summary rows: newest first. Rows
    with the same [created_at] come back in an order the database chooses;
    here they keep their insertion order. *)
Fixpoint insert_newest (x : summary_record) (l : list summary_record)
  : list summary_record :=
  match l with
  | [] => [x]
  | y :: l' =>
      if sr_created_at x <? sr_created_at y then y :: insert_newest x l'
      else x :: l
  end.

Definition newest_first (l : list summary_record) : list summary_record :=
  fold_right insert_newest [] l.

Module Supabase.

Definition next_outcome : M outcome :=
  fun w =>
    match schedule w with
    | [] => (Val Stored, w)
    | o :: rest => (Val o, with_schedule rest w)
    end.

(** [table(t).insert(row).execute()], returning [bool(result.data)];
    [append] adds the row to table [t]. *)
Definition insert (append : world -> world) : M bool :=
  o <- next_outcome ;;
  match o with
  | Stored => fun w => (Val true, append w)
  | Rejected => ret false
  | Unreachable => raise "supabase: request failed"
  end.

Definition add_conversation (r : conversation_record) (w : world) : world :=
  mkWorld (redis w) (documents w) (tbl_conversation_history w ++ [r])
          (tbl_session_summaries w) (tbl_user_experiences w)
          (schedule w) (now w).

Definition add_summary (r : summary_record) (w : world) : world :=
  mkWorld (redis w) (documents w) (tbl_conversation_history w)
          (tbl_session_summaries w ++ [r]) (tbl_user_experiences w)
          (schedule w) (now w).

Definition add_experience (r : experience_record) (w : world) : world :=
  mkWorld (redis w) (documents w) (tbl_conversation_history w)
          (tbl_session_summaries w) (tbl_user_experiences w ++ [r])
          (schedule w) (now w).

(** [table('documents').select('*').eq(..)...limit(n).execute().data]:
    the first [n] rows satisfying the predicate, in insertion order. *)
Definition select_documents (p : document -> bool) (n : nat)
  : M (list document) :=
  o <- next_outcome ;;
  match o with
  | Stored => fun w => (Val (firstn n (List.filter p (documents w))), w)
  | Rejected => ret []
  | Unreachable => raise "supabase: request failed"
  end.

Definition add_document (d : document) (w : world) : world :=
  mkWorld (redis w) (documents w ++ [d]) (tbl_conversation_history w)
          (tbl_session_summaries w) (tbl_user_experiences w)
          (schedule w) (now w).

(** [table('session_summaries').select('*').eq(..).order('created_at',
    desc=True).limit(n).execute().data] *)
Definition select_summaries (p : summary_record -> bool) (n : nat)
  : M (list summary_record) :=
  o <- next_outcome ;;
  match o with
  | Stored =>
      fun w =>
        (Val (firstn n (newest_first (List.filter p (tbl_session_summaries w)))),
         w)
  | Rejected => ret []
  | Unreachable => raise "supabase: request failed"
  end.

End Supabase.

(** ** Session state ([SessionService]) *)

(** Assignments to keys of a session dictionary. *)
Definition set_conversation_history (h : list turn) (s : session) : session :=
  mkSession (session_id s) (user_id s) (created_at s) (user_data s) h
            (difficulty_level s) (subject s) (proficiency_score s)
            (interaction_count s) (initial_proficiency s) (session_status s)
            (ended_at s) (session_duration s).

Definition set_interaction_count (n : Z) (s : session) : session :=
  mkSession (session_id s) (user_id s) (created_at s) (user_data s)
            (conversation_history s) (difficulty_level s) (subject s)
            (proficiency_score s) n (initial_proficiency s) (session_status s)
            (ended_at s) (session_duration s).

Definition set_proficiency_score (n : Z) (s : session) : session :=
  mkSession (session_id s) (user_id s) (created_at s) (user_data s)
            (conversation_history s) (difficulty_level s) (subject s)
            n (interaction_count s) (initial_proficiency s) (session_status s)
            (ended_at s) (session_duration s).

Definition set_difficulty_level (l : string) (s : session) : session :=
  mkSession (session_id s) (user_id s) (created_at s) (user_data s)
            (conversation_history s) l (subject s)
            (proficiency_score s) (interaction_count s)
            (initial_proficiency s) (session_status s)
            (ended_at s) (session_duration s).

Definition set_subject (x : string) (s : session) : session :=
  mkSession (session_id s) (user_id s) (created_at s) (user_data s)
            (conversation_history s) (difficulty_level s) x
            (proficiency_score s) (interaction_count s)
            (initial_proficiency s) (session_status s)
            (ended_at s) (session_duration s).

Definition set_session_status (x : string) (s : session) : session :=
  mkSession (session_id s) (user_id s) (created_at s) (user_data s)
            (conversation_history s) (difficulty_level s) (subject s)
            (proficiency_score s) (interaction_count s)
            (initial_proficiency s) x (ended_at s) (session_duration s).

Definition set_ended_at (t : Z) (s : session) : session :=
  mkSession (session_id s) (user_id s) (created_at s) (user_data s)
            (conversation_history s) (difficulty_level s) (subject s)
            (proficiency_score s) (interaction_count s)
            (initial_proficiency s) (session_status s)
            (Some t) (session_duration s).

Definition set_session_duration (d : Q) (s : session) : session :=
  mkSession (session_id s) (user_id s) (created_at s) (user_data s)
            (conversation_history s) (difficulty_level s) (subject s)
            (proficiency_score s) (interaction_count s)
            (initial_proficiency s) (session_status s)
            (ended_at s) (Some d).

Module SessionService.

Definition session_ttl : Z := 3600.

Definition key (session_id : string) : string := "session:" ++ session_id.

(** [uuid] and [anon_uuid] are the two values drawn from [uuid.uuid4()].
    [user_data] is [None] when the argument is left out or is [None]:
    [user_data.get] then raises, before anything is stored. *)
Definition create_session (uuid anon_uuid : string)
           (user_data : option (gmap string string)) : M string :=
  let session_id := uuid in
  match user_data with
  | None => raise "AttributeError: 'NoneType' object has no attribute 'get'"
  | Some user_data =>
      let user_id :=
        default ("anonymous_" ++ anon_uuid) (user_data !! "user_id") in
      t <- datetime_now ;;
      let session_data :=
        mkSession session_id user_id t user_data [] Config.DEFAULT_DIFFICULTY
                  "english" 50 0 50 "active" None None in
      Redis.setex (key session_id) session_ttl session_data ;;;
      ret session_id
  end.

Definition get_session (session_id : string) : M (option session) :=
  Redis.get (key session_id).

(** [updates] is the effect of [session_data.update(updates)] on the stored
    dictionary; for a dictionary carrying every key it is the constant
    function. *)
Definition update_session (session_id : string)
           (updates : session -> session) : M bool :=
  session_data <- get_session session_id ;;
  match session_data with
  | Some session_data =>
      Redis.setex (key session_id) session_ttl (updates session_data) ;;;
      ret true
  | None => ret false
  end.

Definition add_to_conversation (session_id : string) (message : turn)
  : M bool :=
  session_data <- get_session session_id ;;
  match session_data with
  | Some session_data =>
      let session_data :=
        set_conversation_history
          (conversation_history session_data ++ [message]) session_data in
      let session_data :=
        set_interaction_count
          (interaction_count session_data + 1) session_data in
      update_session session_id (fun _ => session_data)
  | None => ret false
  end.

Definition update_proficiency (session_id : string) (score_change : Z)
  : M bool :=
  session_data <- get_session session_id ;;
  match session_data with
  | Some session_data =>
      let current_score := proficiency_score session_data in
      let new_score := Z.max 0 (Z.min 100 (current_score + score_change)) in
      let session_data := set_proficiency_score new_score session_data in
      let session_data :=
        if 75 <=? new_score then
          set_difficulty_level "advanced" session_data
        else if 40 <=? new_score then
          set_difficulty_level "intermediate" session_data
        else
          set_difficulty_level "beginner" session_data in
      update_session session_id (fun _ => session_data)
  | None => ret false
  end.

(** [round(x, 2)]: the nearest hundredth. A duration of whole seconds in
    minutes never falls halfway between two hundredths. *)
Definition round2 (x : Q) : Q :=
  (inject_Z (Qfloor (x * 100 + (1 # 2))) / 100)%Q.

Definition _calculate_session_duration (session_data : session) : Q :=
  match ended_at session_data with
  | Some end_time =>
      let start_time := created_at session_data in
      let duration := Py.truediv (end_time - start_time) 60 in
      round2 duration
  | None => 0%Q
  end.

Definition _store_conversation_history (session_data : session) : M bool :=
  try_except
    (let conversation_record := {|
       cr_session_id := session_id session_data;
       cr_user_id := user_id session_data;
       cr_conversation_data := conversation_history session_data;
       cr_message_count :=
         Z.of_nat (length (conversation_history session_data));
       cr_subject := subject session_data;
       cr_final_difficulty_level := difficulty_level session_data;
       cr_final_proficiency_score := proficiency_score session_data;
       cr_created_at := created_at session_data;
       cr_ended_at := ended_at session_data;
       cr_session_duration_minutes :=
         default 0%Q (session_duration session_data)
     |} in
     Supabase.insert (Supabase.add_conversation conversation_record))
    (fun _ => ret false).

Definition _store_session_summary (session_data : session) : M bool :=
  try_except
    (let summary_record := {|
       sr_session_id := session_id session_data;
       sr_user_id := user_id session_data;
       sr_subject := subject session_data;
       sr_initial_proficiency_score := initial_proficiency session_data;
       sr_final_proficiency_score := proficiency_score session_data;
       sr_proficiency_improvement :=
         proficiency_score session_data - initial_proficiency session_data;
       sr_initial_difficulty_level := Config.DEFAULT_DIFFICULTY;
       sr_final_difficulty_level := difficulty_level session_data;
       sr_total_interactions := interaction_count session_data;
       sr_session_duration_minutes :=
         default 0%Q (session_duration session_data);
       sr_created_at := created_at session_data;
       sr_ended_at := ended_at session_data;
       sr_session_status := session_status session_data
     |} in
     Supabase.insert (Supabase.add_summary summary_record))
    (fun _ => ret false).

Definition _store_user_experience (session_id user_id : string)
           (experience_data : gmap string string) : M bool :=
  try_except
    (t <- datetime_now ;;
     let experience_record := {|
       er_session_id := session_id;
       er_user_id := user_id;
       er_rating := experience_data !! "rating";
       er_feedback_text := experience_data !! "feedback";
       er_usefulness_rating := experience_data !! "usefulness_rating";
       er_difficulty_appropriate :=
         experience_data !! "difficulty_appropriate";
       er_would_recommend := experience_data !! "would_recommend";
       er_improvement_suggestions :=
         experience_data !! "improvement_suggestions";
       er_favorite_features := experience_data !! "favorite_features";
       er_created_at := t
     |} in
     Supabase.insert (Supabase.add_experience experience_record))
    (fun _ => ret false).

(** Truth value of the optional [user_experience] dictionary. *)
Definition truthy (d : option (gmap string string)) : bool :=
  match d with
  | Some m => negb (bool_decide (m = ∅))
  | None => false
  end.

Definition end_session (session_id : string)
           (user_experience : option (gmap string string)) : M bool :=
  try_except
    (session_data <- get_session session_id ;;
     match session_data with
     | None => ret false
     | Some session_data =>
         t <- datetime_now ;;
         let session_data := set_ended_at t session_data in
         let session_data := set_session_status "ended" session_data in
         let session_data :=
           set_session_duration
             (_calculate_session_duration session_data) session_data in
         conversation_stored <- _store_conversation_history session_data ;;
         (if truthy user_experience
          then _store_user_experience session_id (user_id session_data)
                 (default ∅ user_experience)
          else ret false) ;;;
         session_summary_stored <- _store_session_summary session_data ;;
         Redis.delete (key session_id) ;;;
         ret (conversation_stored && session_summary_stored)
     end)
    (fun _ => ret false).

Definition get_user_session_history (user_id : string) (limit : nat)
  : M (list summary_record) :=
  try_except
    (result <-
       Supabase.select_summaries
         (fun row => String.eqb (sr_user_id row) user_id) limit ;;
     ret (match result with
          | [] => []
          | _ => result
          end))
    (fun _ => ret []).

End SessionService.

(** ** Retrieval engine ([VectorService]) *)

(** One element of the list returned by [hybrid_search]. *)
Record scored_result : Type := mkScored {
  content : string;
  metadata : gmap string string;
  score : Q
}.

(** [sorted(l, key=lambda x: x['score'], reverse=True)]: a stable sort,
    highest score first; elements of equal score keep their order. *)
Fixpoint insert_desc (x : scored_result) (l : list scored_result)
  : list scored_result :=
  match l with
  | [] => [x]
  | y :: l' =>
      if Py.Qgtb (score y) (score x) then y :: insert_desc x l' else x :: l
  end.

Definition sorted_desc (l : list scored_result) : list scored_result :=
  fold_right insert_desc [] l.

(** The [.eq(column, value)] calls accumulated over
    [metadata_filters.items()]. *)
Fixpoint apply_filters (items : list (string * string)) (doc : document)
  : bool :=
  match items with
  | [] => true
  | (key, value) :: rest =>
      (if String.eqb key "subject" then
         String.eqb (doc_subject doc) value
       else if String.eqb key "difficulty_level" then
         String.eqb (doc_difficulty_level doc) value
       else if String.eqb key "content_type" then
         String.eqb (doc_content_type doc) value
       else true)
      && apply_filters rest doc
  end.

(** The template getters of [TeachingPrompts]; a getter that raises (the
    assessment template looks the level up in a dictionary) returns [None]. *)
Record TeachingPrompts : Type := mkPrompts {
  get_assessment_prompt : string -> option string;
  get_test_prep_prompt : string -> option string;
  get_concept_teaching_prompt : string -> option string;
  get_session_ending_prompt : string -> option string;
  get_general_teaching_prompt : string -> option string
}.

(** The [SystemMessage] and the fields interpolated into the
    [HumanMessage] handed to the model. *)
Record chat_messages : Type := mkMessages {
  system_content : string;
  human_context : string;
  human_recent_conversation : string;
  human_difficulty_level : string;
  human_proficiency_score : Z;
  human_interaction_count : Z;
  human_message : string
}.

Record model_response : Type := mkResponse {
  response_content : string;
  response_strategy : string
}.

(** The dictionary returned by [process_student_message]. *)
Inductive reply : Type :=
| Error (error : string)
| Reply (response : string) (difficulty_level : string)
        (proficiency_score : Z) (teaching_strategy : string)
        (session_id : string) (interaction_count : Z).

(** [x = f()] where [f] raises when it has no value. *)
Definition call {A} (what : string) (r : option A) : M A :=
  match r with
  | Some a => ret a
  | None => raise what
  end.

Section Pipeline.

(** [OpenAIEmbeddings().embed_query]; [None] when the call raises. *)
Variable embed_query : string -> option (list Q).

(** [ModelManager().get_active_model()(messages).content]; [None] when
    no model can be obtained or the call raises. *)
Variable model : chat_messages -> option string.

Variable prompts : TeachingPrompts.

(** [limit] is a row count. *)
Definition hybrid_search (query : string)
           (metadata_filters : option (list (string * string)))
           (limit : nat) : M (list scored_result) :=
  try_except
    (query_embedding <- call "embed_query" (embed_query query) ;;
     let search_query :=
       match metadata_filters with
       | Some items => apply_filters items
       | None => fun _ => true
       end in
     results <- Supabase.select_documents search_query limit ;;
     let scored_results :=
       map (fun doc => {| content := doc_content doc;
                          metadata := doc_metadata doc;
                          score := 0.8 |}) results in
     ret (sorted_desc scored_results))
    (fun _ => ret []).

Definition search_by_difficulty (query difficulty_level subject : string)
  : M (list scored_result) :=
  let metadata_filters :=
    [("subject", subject); ("difficulty_level", difficulty_level)] in
  hybrid_search query (Some metadata_filters) 5.

(** ** Response orchestrator ([TeachingService]) *)

Definition _build_context (search_results : list scored_result) : string :=
  match search_results with
  | [] => "No specific context found."
  | _ =>
      Py.join Py.newline
        (map (fun result => "- " ++ Py.prefix 200 (content result) ++ "...")
             (firstn 3 search_results))
  end.

Definition _build_conversation_context (recent_messages : list turn)
  : string :=
  match recent_messages with
  | [] => "This is the beginning of the conversation."
  | _ =>
      Py.join Py.newline
        (map (fun msg =>
                let role := if String.eqb (turn_type msg) "student"
                            then "Student" else "Teacher" in
                role ++ ": " ++ Py.prefix 100 (turn_message msg) ++ "...")
             recent_messages)
  end.

Definition _generate_adaptive_response (message : string)
           (session_data : session) (search_results : list scored_result)
  : M model_response :=
  let difficulty_level := difficulty_level session_data in
  let conversation_history := conversation_history session_data in
  selected <-
    (if interaction_count session_data <? 3 then
       p <- call "prompt" (get_assessment_prompt prompts difficulty_level) ;;
       ret (p, "assessment")
     else if Py.any_in ["test"; "quiz"; "exam"; "practice"]
               (Py.lower message) then
       p <- call "prompt" (get_test_prep_prompt prompts difficulty_level) ;;
       ret (p, "test_prep")
     else if Py.contains_char "?" message
             || Py.any_in ["what"; "how"; "why"; "when"; "where"]
                  (Py.lower message) then
       p <- call "prompt"
              (get_concept_teaching_prompt prompts difficulty_level) ;;
       ret (p, "concept_teaching")
     else if Py.any_in ["bye"; "goodbye"; "end"; "finish"; "stop"; "done"]
               (Py.lower message) then
       p <- call "prompt"
              (get_session_ending_prompt prompts difficulty_level) ;;
       ret (p, "session_ending")
     else
       p <- call "prompt"
              (get_general_teaching_prompt prompts difficulty_level) ;;
       ret (p, "general_teaching")) ;;
  let '(system_instruction, strategy) := selected in
  let context := _build_context search_results in
  let recent_conversation :=
    _build_conversation_context
      (match conversation_history with
       | [] => []
       | _ => Py.last_n 6 conversation_history
       end) in
  let messages := {|
    system_content := system_instruction;
    human_context := context;
    human_recent_conversation := recent_conversation;
    human_difficulty_level := difficulty_level;
    human_proficiency_score := proficiency_score session_data;
    human_interaction_count := interaction_count session_data;
    human_message := message
  |} in
  response <- call "model" (model messages) ;;
  ret {| response_content := response; response_strategy := strategy |}.

Definition process_student_message (session_id message : string)
  : M reply :=
  try_except
    (session_data <- SessionService.get_session session_id ;;
     match session_data with
     | None => ret (Error "Invalid session")
     | Some session_data =>
         if negb (String.eqb (session_status session_data) "active")
         then ret (Error "Session is not active")
         else
           let proficiency_analysis :=
             _analyze_proficiency message session_data in
           session_data <-
             (if negb (score_change proficiency_analysis =? 0) then
                SessionService.update_proficiency session_id
                  (score_change proficiency_analysis) ;;;
                refreshed <- SessionService.get_session session_id ;;
                call "NoneType is not subscriptable" refreshed
              else ret session_data) ;;
           search_results <-
             search_by_difficulty message
               (difficulty_level session_data)
               (subject session_data) ;;
           response <-
             _generate_adaptive_response message session_data
               search_results ;;
           t <- datetime_now ;;
           SessionService.add_to_conversation session_id
             (StudentTurn message t
                (difficulty_level session_data)
                (proficiency_score session_data)) ;;;
           t <- datetime_now ;;
           SessionService.add_to_conversation session_id
             (TeacherTurn (response_content response) t
                (response_strategy response)
                (Z.of_nat (length search_results))) ;;;
           ret (Reply (response_content response)
                      (difficulty_level session_data)
                      (proficiency_score session_data)
                      (response_strategy response)
                      session_id
                      (interaction_count session_data))
     end)
    (fun _ => ret (Error "Failed to process message")).

End Pipeline.

(** ** Ingestion ([VectorService.add_documents]) *)

(** A langchain [Document]: text and metadata. *)
Record lc_document : Type := mkLcDocument {
  page_content : string;
  lc_metadata : gmap string string
}.

Section Ingestion.

Variable embed_query : string -> option (list Q).

(** [RecursiveCharacterTextSplitter(...).split_documents] *)
Variable split_documents : list lc_document -> list lc_document.

(** The body of [for chunk in chunks: ...]. *)
Fixpoint add_chunks (chunks : list lc_document) : M unit :=
  match chunks with
  | [] => ret tt
  | chunk :: rest =>
      embedding <- call "embed_query" (embed_query (page_content chunk)) ;;
      let doc_data := {|
        doc_content := page_content chunk;
        doc_metadata := lc_metadata chunk;
        doc_embedding := embedding;
        doc_subject := default "english" (lc_metadata chunk !! "subject");
        doc_difficulty_level :=
          default "intermediate" (lc_metadata chunk !! "difficulty_level");
        doc_content_type :=
          default "lesson" (lc_metadata chunk !! "content_type")
      |} in
      Supabase.insert (Supabase.add_document doc_data) ;;;
      add_chunks rest
  end.

Definition add_documents (documents : list lc_document) : M bool :=
  try_except
    (let chunks := split_documents documents in
     add_chunks chunks ;;;
     ret true)
    (fun _ => ret false).

End Ingestion.

(** ** Model selection ([ModelManager]) *)

Module ModelManager.

(** The settings that [Config] reads from the environment. *)
Record settings : Type := mkSettings {
  GOOGLE_API_KEY : option string;
  OPENROUTER_API_KEY : option string;
  OPENROUTER_MODEL : option string;
  PREFER_LEARNLM : option string
}.

Definition LEARNLM_MODEL : string := "learnlm-2.0-flash-experimental".

(** The two chat clients, with the arguments they are built from. *)
Inductive client : Type :=
| ChatGoogleGenerativeAI (model : string) (google_api_key : option string)
                         (temperature : Q) (max_tokens : Z)
| ChatOpenAI (model : option string) (openai_api_key : option string)
             (openai_api_base : string) (temperature : Q) (max_tokens : Z).

(** The two cache attributes of a [ModelManager]. *)
Record manager : Type := mkManager {
  _learnlm_model : option client;
  _openrouter_model : option client
}.

(** Truth value of an optional string. *)
Definition truthy (x : option string) : bool :=
  match x with
  | Some EmptyString => false
  | Some _ => true
  | None => false
  end.

Section Manager.

Variable config : settings.

(** Whether the client library builds a client from these arguments; it
    raises otherwise. *)
Variable accepts : client -> bool.

Definition get_learnlm_model (self : manager) : res client * manager :=
  match _learnlm_model self with
  | None =>
      let c := ChatGoogleGenerativeAI LEARNLM_MODEL (GOOGLE_API_KEY config)
                                      0.7 1000 in
      if accepts c
      then (Val c, mkManager (Some c) (_openrouter_model self))
      else (Exn "ChatGoogleGenerativeAI", self)
  | Some c => (Val c, self)
  end.

Definition get_openrouter_model (self : manager) : res client * manager :=
  match _openrouter_model self with
  | None =>
      let c := ChatOpenAI (OPENROUTER_MODEL config) (OPENROUTER_API_KEY config)
                          "https://openrouter.ai/api/v1" 0.7 1000 in
      if accepts c
      then (Val c, mkManager (_learnlm_model self) (Some c))
      else (Exn "ChatOpenAI", self)
  | Some c => (Val c, self)
  end.

(** [prefer_learnlm] is the optional argument; [None] when it is left out. *)
Definition get_active_model (prefer_learnlm : option bool) (self : manager)
  : res client * manager :=
  let prefer_learnlm :=
    match prefer_learnlm with
    | None => truthy (PREFER_LEARNLM config)
    | Some b => b
    end in
  match
    (if prefer_learnlm && truthy (GOOGLE_API_KEY config) then
       get_learnlm_model self
     else if truthy (OPENROUTER_API_KEY config) then
       get_openrouter_model self
     else (Exn "No valid API keys configured", self))
  with
  | (Val c, self') => (Val c, self')
  | (Exn _, self') => get_openrouter_model self'
  end.

End Manager.

End ModelManager.

(** ** The templates of the repository ([prompts/teaching_prompts.py]) *)

Module Templates.

Definition nl : string := Py.newline.

Definition base_prompt : string :=
  nl
  ++ "        You are an expert English language teacher. This is one of your first interactions "
  ++ nl
  ++ "        with this student. Your goal is to assess their current English proficiency while "
  ++ nl ++ "        being encouraging and supportive." ++ nl ++ "        "
  ++ nl ++ "        Guidelines:" ++ nl
  ++ "        - Ask engaging questions that help gauge their level" ++ nl
  ++ "        - Be patient and encouraging" ++ nl
  ++ "        - Provide gentle corrections if needed" ++ nl
  ++ "        - Adapt your language complexity to their apparent level" ++ nl
  ++ "        ".

(** The dictionary [level_specific]; a missing key raises [KeyError]. *)
Definition level_specific (difficulty_level : string) : option string :=
  if String.eqb difficulty_level "beginner" then
    Some "Use simple vocabulary and short sentences. Focus on basic concepts."
  else if String.eqb difficulty_level "intermediate" then
    Some "Use moderate vocabulary and clear explanations. Introduce some complex concepts."
  else if String.eqb difficulty_level "advanced" then
    Some "Use sophisticated vocabulary and engage in complex discussions."
  else None.

Definition get_assessment_prompt (difficulty_level : string)
  : option string :=
  match level_specific difficulty_level with
  | Some guidance =>
      Some (base_prompt ++ nl ++ nl ++ "Level-specific guidance: "
            ++ guidance)
  | None => None
  end.

Definition get_test_prep_prompt (difficulty_level : string) : string :=
  nl
  ++ "        You are a tutor helping a student prepare for an English language test at "
  ++ difficulty_level ++ " level." ++ nl ++ "        " ++ nl
  ++ "        * Generate practice questions appropriate for "
  ++ difficulty_level ++ " level" ++ nl
  ++ "        * Start simple, then make questions more difficult if the student answers correctly"
  ++ nl ++ "        * Prompt the student to explain their reasoning" ++ nl
  ++ "        * After the student explains their choice, affirm correct answers or guide them to correct mistakes"
  ++ nl
  ++ "        * If a student requests to move on, give the correct answer and continue"
  ++ nl
  ++ "        * After 5 questions, offer a summary of their performance and study recommendations"
  ++ nl ++ "        " ++ nl
  ++ "        Adapt your vocabulary and complexity to " ++ difficulty_level
  ++ " level." ++ nl ++ "        ".

Definition get_concept_teaching_prompt (difficulty_level : string) : string :=
  nl ++ "        Be a friendly, supportive English tutor at "
  ++ difficulty_level ++ " level. Guide the student " ++ nl
  ++ "        to understand English concepts through questions rather than direct explanation."
  ++ nl ++ "        " ++ nl
  ++ "        * Ask guiding questions to help students take incremental steps toward understanding"
  ++ nl ++ "        * Use vocabulary appropriate for " ++ difficulty_level
  ++ " level" ++ nl
  ++ "        * Pose just one question per turn to avoid overwhelming the student"
  ++ nl ++ "        * Be encouraging and patient" ++ nl
  ++ "        * Wrap up once the student shows evidence of understanding"
  ++ nl ++ "        " ++ nl
  ++ "        Remember to match your language complexity to "
  ++ difficulty_level ++ " level." ++ nl ++ "        ".

Definition get_general_teaching_prompt (difficulty_level : string) : string :=
  nl
  ++ "        You are a friendly English conversation partner and teacher for a "
  ++ difficulty_level ++ " " ++ nl
  ++ "        level student. Help them practice English through natural conversation while "
  ++ nl ++ "        providing gentle corrections and learning opportunities."
  ++ nl ++ "        " ++ nl
  ++ "        * Engage in natural conversation appropriate for "
  ++ difficulty_level ++ " level" ++ nl
  ++ "        * Provide gentle corrections when needed" ++ nl
  ++ "        * Ask follow-up questions to encourage more speaking" ++ nl
  ++ "        * Introduce new vocabulary naturally" ++ nl
  ++ "        * Be patient and encouraging" ++ nl ++ "        " ++ nl
  ++ "        Adjust your vocabulary and sentence complexity for "
  ++ difficulty_level ++ " level." ++ nl ++ "        ".

Definition get_session_ending_prompt (difficulty_level : string) : string :=
  nl ++ "        You are an English tutor helping a " ++ difficulty_level
  ++ " level student who seems " ++ nl
  ++ "        ready to end the session. Provide a warm, encouraging conclusion to the learning session."
  ++ nl ++ "        " ++ nl
  ++ "        * Acknowledge their effort and progress made during the session"
  ++ nl
  ++ "        * Provide a brief, positive summary of what they practiced"
  ++ nl ++ "        * Give encouragement for continued learning" ++ nl
  ++ "        * Offer a friendly goodbye appropriate for "
  ++ difficulty_level ++ " level" ++ nl
  ++ "        * Suggest they can return anytime to continue learning" ++ nl
  ++ "        " ++ nl ++ "        Keep your language appropriate for "
  ++ difficulty_level ++ " level and be warm and supportive." ++ nl
  ++ "        ".

End Templates.

(** The [TeachingPrompts] object of the repository. Only the assessment
    template can raise. *)
Definition teaching_prompts : TeachingPrompts := {|
  get_assessment_prompt := Templates.get_assessment_prompt;
  get_test_prep_prompt := fun level => Some (Templates.get_test_prep_prompt level);
  get_concept_teaching_prompt :=
    fun level => Some (Templates.get_concept_teaching_prompt level);
  get_session_ending_prompt :=
    fun level => Some (Templates.get_session_ending_prompt level);
  get_general_teaching_prompt :=
    fun level => Some (Templates.get_general_teaching_prompt level)
|}.

(** ** The specification's own wording, for comparison with the code *)

(** Section 4.2: score >= 75 is advanced, 40 <= score < 75 is intermediate,
    score < 40 is beginner. *)
Inductive level_of (score : Z) : string -> Prop :=
| level_advanced : 75 <= score -> level_of score "advanced"
| level_intermediate : 40 <= score < 75 -> level_of score "intermediate"
| level_beginner : score < 40 -> level_of score "beginner".

(** Section 4.4: the strategy rules in priority order, on the lower-cased
    utterance and the interaction counter. *)
Definition spec_strategy (interactionCount : Z) (utterance : string) : string :=
  let normalized := Py.lower utterance in
  if interactionCount <? 3 then "assessment"
  else if Py.any_in ["test"; "quiz"; "exam"; "practice"] normalized
  then "test_prep"
  else if Py.contains_char "?" normalized
          || Py.any_in ["what"; "how"; "why"; "when"; "where"] normalized
  then "concept_teaching"
  else if Py.any_in ["bye"; "goodbye"; "end"; "finish"; "stop"; "done"]
            normalized
  then "session_ending"
  else "general_teaching".

(** Section 4.3: cosine similarity of two embeddings. [c] is the cosine of
    the angle between [u] and [v] when [c * |u| * |v| = u . v]; stated on
    squares, with the sign kept, so that no square root is needed. *)
Definition dot (u v : list Q) : Q :=
  fold_right Qplus 0%Q (zip_with Qmult u v).

Definition spec_cosine_is (u v : list Q) (c : Q) : Prop :=
  (c * c * (dot u u * dot v v) == dot u v * dot u v)%Q
  /\ (0 <= c * dot u v)%Q.

(** ** In-memory collaborators and sample data used to run the model *)

Definition sample_session (level : string) (score : Z) : session :=
  mkSession "s1" "u1" 0 ∅ [] level "english" score 0 50 "active" None None.

Definition fake_prompts : TeachingPrompts := {|
  get_assessment_prompt := fun level => Some ("assess at " ++ level);
  get_test_prep_prompt := fun level => Some ("test prep at " ++ level);
  get_concept_teaching_prompt := fun level => Some ("concepts at " ++ level);
  get_session_ending_prompt := fun level => Some ("goodbye at " ++ level);
  get_general_teaching_prompt := fun level => Some ("talk at " ++ level)
|}.

Definition fake_model (m : chat_messages) : option string :=
  Some "Tell me more.".

Definition failing_model (m : chat_messages) : option string := None.

Definition fake_embed (text : string) : option (list Q) := Some [1%Q; 0%Q].

Definition failing_embed (text : string) : option (list Q) := None.

Definition empty_world : world := mkWorld ∅ [] [] [] [] [] 1000.

(** The world right after [create_session] for a user ["u1"]. *)
Definition fresh_world : world :=
  snd (SessionService.create_session "s1" "a1" (Some {["user_id" := "u1"]})
         empty_world).

(** The session dictionary stored by that call. *)
Definition fresh_session : session :=
  mkSession "s1" "u1" 1000 {["user_id" := "u1"]} [] "intermediate" "english"
            50 0 50 "active" None None.

(** The same world when the next request to Supabase raises. *)
Definition outage_world : world := with_schedule [Unreachable] fresh_world.

(** A content store with two lessons whose embeddings are orthogonal, and an
    embedding provider that maps the query below onto the second one. *)
Definition lesson_nouns : document :=
  mkDocument "Nouns name people, places and things." ∅ [1%Q; 0%Q]
             "english" "intermediate" "lesson".

Definition lesson_past_tense : document :=
  mkDocument "The past tense describes finished actions." ∅ [0%Q; 1%Q]
             "english" "intermediate" "lesson".

Definition library_world : world :=
  mkWorld ∅ [lesson_nouns; lesson_past_tense] [] [] [] [] 1000.

Definition axis_embed (text : string) : option (list Q) :=
  if String.eqb text "past tense" then Some [0%Q; 1%Q] else Some [1%Q; 0%Q].

(** ** Vocabulary for the statements *)

(** Every template getter returns a template for [level]. *)
Definition prompts_answer_at (prompts : TeachingPrompts) (level : string)
  : Prop :=
  is_Some (get_assessment_prompt prompts level)
  /\ is_Some (get_test_prep_prompt prompts level)
  /\ is_Some (get_concept_teaching_prompt prompts level)
  /\ is_Some (get_session_ending_prompt prompts level)
  /\ is_Some (get_general_teaching_prompt prompts level).

(** Every template getter returns a template for each of [levels]. *)
Definition prompts_answer_on (levels : list string) (prompts : TeachingPrompts)
  : Prop :=
  forall level, In level levels -> prompts_answer_at prompts level.

(** The line that [_build_conversation_context] makes for one turn. *)
Definition conversation_line (msg : turn) : string :=
  (if String.eqb (turn_type msg) "student" then "Student" else "Teacher")
  ++ ": " ++ Py.prefix 100 (turn_message msg) ++ "...".

(** The messages that [_generate_adaptive_response] hands to the model once
    it has chosen the template [system_instruction]. *)
Definition assembled (system_instruction message : string) (s : session)
           (search_results : list scored_result) : chat_messages := {|
  system_content := system_instruction;
  human_context := _build_context search_results;
  human_recent_conversation :=
    _build_conversation_context (Py.last_n 6 (conversation_history s));
  human_difficulty_level := difficulty_level s;
  human_proficiency_score := proficiency_score s;
  human_interaction_count := interaction_count s;
  human_message := message
|}.

(** Every template getter returns a template for every level. *)
Definition prompts_answer (prompts : TeachingPrompts) : Prop :=
  forall level,
    is_Some (get_assessment_prompt prompts level)
    /\ is_Some (get_test_prep_prompt prompts level)
    /\ is_Some (get_concept_teaching_prompt prompts level)
    /\ is_Some (get_session_ending_prompt prompts level)
    /\ is_Some (get_general_teaching_prompt prompts level).

(** The predicate that [hybrid_search] hands to the content store. *)
Definition search_predicate (metadata_filters : option (list (string * string)))
  : document -> bool :=
  match metadata_filters with
  | Some items => apply_filters items
  | None => fun _ => true
  end.

(** The snippet built from a stored row. *)
Definition snippet (doc : document) : scored_result :=
  {| content := doc_content doc; metadata := doc_metadata doc; score := 0.8 |}.

(** Session [session_id] is in the live store, unexpired, with value [s]. *)
Definition live (w : world) (session_id : string) (s : session) : Prop :=
  SessionService.get_session session_id w = (Val (Some s), w).

(** No live session under [session_id]. *)
Definition absent (w : world) (session_id : string) : Prop :=
  SessionService.get_session session_id w = (Val None, w).

(** The world after [setex] of [s] under the key of [session_id]. *)
Definition store (session_id : string) (s : session) (w : world) : world :=
  with_redis
    (<[SessionService.key session_id :=
         (now w + SessionService.session_ttl, s)]> (redis w)) w.

(** The session dictionary after [add_to_conversation] has appended
    [message] to it. *)
Definition appended (message : turn) (s : session) : session :=
  set_interaction_count (interaction_count s + 1)
    (set_conversation_history (conversation_history s ++ [message]) s).

(** The outcome that the [i]-th coming Supabase request will have. *)
Definition outcome_at (w : world) (i : nat) : outcome :=
  nth i (schedule w) Stored.

(** [bool(result.data)] of an insert with that outcome (when it returns). *)
Definition stored (o : outcome) : bool :=
  match o with
  | Stored => true
  | _ => false
  end.

(** One request to the durable sink: it reports [b], uses up one scheduled
    outcome, and leaves the session store and the clock alone. *)
Definition sink_step (b : bool) (w w' : world) : Prop :=
  b = stored (outcome_at w 0)
  /\ redis w' = redis w /\ now w' = now w
  /\ schedule w' = tl (schedule w).

(** The conversation log held in Redis under a key, if any. *)
Definition history_at (w : world) (key : string) : option (list turn) :=
  (fun entry => conversation_history (snd entry)) <$> redis w !! key.

(** The same world when the clock reads [t]. *)
Definition at_time (t : Z) (w : world) : world :=
  mkWorld (redis w) (documents w) (tbl_conversation_history w)
          (tbl_session_summaries w) (tbl_user_experiences w) (schedule w) t.

(** The session dictionary that [update_proficiency] writes back. *)
Definition rescored (score_change : Z) (s : session) : session :=
  let new_score := Z.max 0 (Z.min 100 (proficiency_score s + score_change)) in
  let s := set_proficiency_score new_score s in
  if 75 <=? new_score then set_difficulty_level "advanced" s
  else if 40 <=? new_score then set_difficulty_level "intermediate" s
  else set_difficulty_level "beginner" s.

(** What holds of every session dictionary that the service methods put in
    the store. *)
Record well_formed (s : session) : Prop := mkWellFormed {
  wf_score : 0 <= proficiency_score s <= 100;
  wf_level : level_of (proficiency_score s) (difficulty_level s);
  wf_count : interaction_count s = Z.of_nat (length (conversation_history s));
  wf_status : session_status s = "active";
  wf_initial : initial_proficiency s = 50;
  wf_open : ended_at s = None /\ session_duration s = None
}.

Definition store_ok (w : world) : Prop :=
  forall k deadline s,
    redis w !! k = Some (deadline, s) ->
    well_formed s /\ k = SessionService.key (session_id s).

(** The session dictionaries that a submission can make of [s]: proficiency
    updates and appended turns, in any number. *)
Inductive evolves (s : session) : session -> Prop :=
| evolves_refl : evolves s s
| evolves_score s' delta : evolves s s' -> evolves s (rescored delta s')
| evolves_append s' message :
    evolves s s' -> evolves s (appended message s').

(** One step of the system: a call of a service method that the handlers
    of [api/routes.py] call (the subject handler calls [update_session] with
    a dictionary that holds the subject alone), the passing of time, or the
    durable store deciding how its coming requests will go. *)
Inductive api_step : world -> world -> Prop :=
| step_create uuid anon_uuid user_data w :
    api_step w (snd (SessionService.create_session uuid anon_uuid user_data w))
| step_message embed_query model prompts session_id message w :
    api_step w (snd (process_student_message embed_query model prompts
                       session_id message w))
| step_end session_id user_experience w :
    api_step w (snd (SessionService.end_session session_id user_experience w))
| step_subject session_id subject w :
    api_step w (snd (SessionService.update_session session_id
                       (set_subject subject) w))
| step_ingest embed_query split_documents docs w :
    api_step w (snd (add_documents embed_query split_documents docs w))
| step_search embed_query query filters limit w :
    api_step w (snd (hybrid_search embed_query query filters limit w))
| step_clock t w :
    now w <= t -> api_step w (at_time t w)
| step_schedule sch w :
    api_step w (with_schedule sch w).

(** Worlds reachable from a world whose session store is empty. *)
Inductive reachable : world -> Prop :=
| reach_start w : redis w = ∅ -> reachable w
| reach_step w w' : reachable w -> api_step w w' -> reachable w'.

(** [len(s)] of the line that [_build_context] makes for one result. *)
Definition context_line (result : scored_result) : string :=
  "- " ++ Py.prefix 200 (content result) ++ "...".

(** Row [d] of the documents table is what [add_documents] stores for
    chunk [c]. *)
Definition stored_as (embed_query : string -> option (list Q))
           (c : lc_document) (d : document) : Prop :=
  doc_content d = page_content c
  /\ doc_metadata d = lc_metadata c
  /\ embed_query (page_content c) = Some (doc_embedding d)
  /\ doc_subject d = default "english" (lc_metadata c !! "subject")
  /\ doc_difficulty_level d
     = default "intermediate" (lc_metadata c !! "difficulty_level")
  /\ doc_content_type d = default "lesson" (lc_metadata c !! "content_type").

(** The two clients that a [ModelManager] builds from its settings. *)
Definition learnlm_client (config : ModelManager.settings)
  : ModelManager.client :=
  ModelManager.ChatGoogleGenerativeAI
    ModelManager.LEARNLM_MODEL (ModelManager.GOOGLE_API_KEY config) 0.7 1000.

Definition openrouter_client (config : ModelManager.settings)
  : ModelManager.client :=
  ModelManager.ChatOpenAI
    (ModelManager.OPENROUTER_MODEL config)
    (ModelManager.OPENROUTER_API_KEY config)
    "https://openrouter.ai/api/v1" 0.7 1000.

(** Whether [get_active_model] goes for the LearnLM client first. *)
Definition wants_learnlm (config : ModelManager.settings)
           (prefer_learnlm : option bool) : bool :=
  match prefer_learnlm with
  | None => ModelManager.truthy (ModelManager.PREFER_LEARNLM config)
  | Some b => b
  end && ModelManager.truthy (ModelManager.GOOGLE_API_KEY config).

(** A manager whose two caches are empty. *)
Definition new_manager : ModelManager.manager :=
  ModelManager.mkManager None None.

(** Sample data for ingestion and for the model manager. *)
Definition whole_documents (docs : list lc_document) : list lc_document := docs.

Definition verbs_chunk : lc_document :=
  mkLcDocument "Verbs describe actions."
               {["subject" := "english"; "difficulty_level" := "beginner"]}.

Definition bare_chunk : lc_document :=
  mkLcDocument "Fractions are parts of a whole." ∅.

Definition no_keys : ModelManager.settings :=
  ModelManager.mkSettings None None None None.

Definition google_first : ModelManager.settings :=
  ModelManager.mkSettings (Some "g-key") (Some "o-key") (Some "some/model")
                          (Some "true").

Definition accepts_all (c : ModelManager.client) : bool := true.

Definition accepts_openrouter_only (c : ModelManager.client) : bool :=
  match c with
  | ModelManager.ChatOpenAI _ _ _ _ _ => true
  | ModelManager.ChatGoogleGenerativeAI _ _ _ _ => false
  end.

(** * Properties *)

Example split_ex :
  Py.split "  Can you   explain. " = ["Can"; "you"; "explain."].
Proof. reflexivity. Qed.

Example strip_ex : Py.strip ".,!?" "?!what?." = "what".
Proof. reflexivity. Qed.

Example lower_ex : Py.lower "Past TENSE?" = "past tense?".
Proof. reflexivity. Qed.

Example contains_ex :
  Py.contains "test" "past tense" = false /\ Py.contains "end" "the end" = true.
Proof. split; reflexivity. Qed.

(** A session created with default values: score 50, level intermediate,
    no interaction, active. *)
Example create_session_defaults :
  SessionService.create_session "s1" "a1" (Some {["user_id" := "u1"]})
    empty_world
  = (Val "s1", fresh_world)
  /\ live fresh_world "s1" fresh_session.
Proof. split; vm_compute; reflexivity. Qed.

(** ** Proficiency estimator *)

Example analyze_rich_vocabulary :
  score_change
    (_analyze_proficiency "Extraordinary vocabulary demonstrates proficiency"
       (sample_session "beginner" 10)) = 5.
Proof. vm_compute. reflexivity. Qed.

Example analyze_plain_beginner :
  score_change
    (_analyze_proficiency "I dont no what too do" (sample_session "beginner" 30))
  = 0.
Proof. vm_compute. reflexivity. Qed.

Example analyze_punctuation_only :
  score_change (_analyze_proficiency "?!" (sample_session "intermediate" 50))
  = -1.
Proof. vm_compute. reflexivity. Qed.

Lemma analyze_level_only (message : string) (s1 s2 : session) :
  difficulty_level s1 = difficulty_level s2 ->
  _analyze_proficiency message s1 = _analyze_proficiency message s2.
Proof.
  intros Hlevel. unfold _analyze_proficiency. now rewrite Hlevel.
Qed.


(** ** Session store *)

Lemma live_lookup (w : world) (sid : string) (s : session) :
  live w sid s <->
  exists deadline,
    redis w !! SessionService.key sid = Some (deadline, s) /\ now w <= deadline.
Proof.
  unfold live, SessionService.get_session, Redis.get. split.
  - intros H. injection H as H.
    destruct (redis w !! SessionService.key sid) as [[d v]|]; [|discriminate].
    destruct (Z.leb_spec (now w) d); [|discriminate].
    injection H as ->. eauto.
  - intros (d & -> & Hd). apply Z.leb_le in Hd. now rewrite Hd.
Qed.

Lemma live_or_absent (w : world) (sid : string) :
  (exists s, live w sid s) \/ absent w sid.
Proof.
  unfold live, absent, SessionService.get_session, Redis.get.
  destruct (redis w !! SessionService.key sid) as [[d v]|]; [|now right].
  destruct (now w <=? d); [left; eauto | now right].
Qed.


Lemma live_store (w : world) (sid : string) (s : session) :
  live (store sid s w) sid s.
Proof.
  apply live_lookup. exists (now w + SessionService.session_ttl). split.
  - unfold store. cbn. apply lookup_insert_eq.
  - unfold store, SessionService.session_ttl. cbn. lia.
Qed.

Lemma history_at_store (w : world) (sid : string) (s : session) (k : string) :
  history_at (store sid s w) k =
  if decide (SessionService.key sid = k)
  then Some (conversation_history s) else history_at w k.
Proof.
  unfold history_at, store. cbn. rewrite lookup_insert.
  now destruct (decide (SessionService.key sid = k)).
Qed.

Lemma update_session_live (w : world) (sid : string) (s : session)
      (updates : session -> session) :
  live w sid s ->
  SessionService.update_session sid updates w
  = (Val true, store sid (updates s) w).
Proof.
  intros H. unfold SessionService.update_session, bind. now rewrite H.
Qed.

Lemma update_session_absent (w : world) (sid : string)
      (updates : session -> session) :
  absent w sid -> SessionService.update_session sid updates w = (Val false, w).
Proof.
  intros H. unfold SessionService.update_session, bind. now rewrite H.
Qed.

Lemma add_to_conversation_live (w : world) (sid : string) (s : session)
      (message : turn) :
  live w sid s ->
  SessionService.add_to_conversation sid message w
  = (Val true, store sid (appended message s) w).
Proof.
  intros H. unfold SessionService.add_to_conversation, bind. rewrite H.
  now rewrite (update_session_live _ _ _ _ H).
Qed.

Lemma add_to_conversation_absent (w : world) (sid : string) (message : turn) :
  absent w sid ->
  SessionService.add_to_conversation sid message w = (Val false, w).
Proof.
  intros H. unfold SessionService.add_to_conversation, bind. now rewrite H.
Qed.

(** The session written back by [update_proficiency]. *)
Lemma update_proficiency_live (w : world) (sid : string) (s : session)
      (delta : Z) :
  live w sid s ->
  exists s',
    SessionService.update_proficiency sid delta w = (Val true, store sid s' w)
    /\ proficiency_score s' = Z.max 0 (Z.min 100 (proficiency_score s + delta))
    /\ level_of (proficiency_score s') (difficulty_level s')
    /\ conversation_history s' = conversation_history s
    /\ interaction_count s' = interaction_count s
    /\ session_status s' = session_status s
    /\ subject s' = subject s.
Proof.
  intros H. unfold SessionService.update_proficiency, bind. rewrite H.
  set (n := Z.max 0 (Z.min 100 (proficiency_score s + delta))).
  rewrite (update_session_live _ _ _ _ H).
  eexists. split; [reflexivity|].
  destruct (Z.leb_spec 75 n); [|destruct (Z.leb_spec 40 n)]; cbn;
    repeat split; try reflexivity.
  - now apply level_advanced.
  - apply level_intermediate. lia.
  - now apply level_beginner.
Qed.

Lemma update_proficiency_absent (w : world) (sid : string) (delta : Z) :
  absent w sid ->
  SessionService.update_proficiency sid delta w = (Val false, w).
Proof.
  intros H. unfold SessionService.update_proficiency, bind. now rewrite H.
Qed.

Lemma level_of_unique (score : Z) (l1 l2 : string) :
  level_of score l1 -> level_of score l2 -> l1 = l2.
Proof. intros [] []; (reflexivity || lia). Qed.

Lemma level_of_total (score : Z) : exists l, level_of score l.
Proof.
  destruct (Z.le_gt_cases 75 score); [eexists; now apply level_advanced|].
  destruct (Z.le_gt_cases 40 score).
  - eexists. apply level_intermediate. lia.
  - eexists. apply level_beginner. lia.
Qed.

(** C1. Whenever [update_proficiency] mutates a session, the score it
    persists is the old score plus the change clamped to [0,100], the level
    persisted with it is the one the thresholds assign to that clamped score
    (advanced from 75, intermediate from 40 to 74, beginner below 40), and
    every score has exactly one such level. *)
Theorem update_proficiency_consistent
        (w : world) (sid : string) (s : session) (delta : Z) :
  live w sid s ->
  exists w' s',
    SessionService.update_proficiency sid delta w = (Val true, w')
    /\ live w' sid s'
    /\ proficiency_score s' = Z.max 0 (Z.min 100 (proficiency_score s + delta))
    /\ 0 <= proficiency_score s' <= 100
    /\ level_of (proficiency_score s') (difficulty_level s')
    /\ (forall score, exists l, level_of score l
                               /\ forall l', level_of score l' -> l' = l).
Proof.
  intros H.
  destruct (update_proficiency_live w sid s delta H)
    as (s' & Hrun & Hscore & Hlevel & _).
  exists (store sid s' w), s'. repeat split; try assumption.
  - apply live_store.
  - lia.
  - lia.
  - intros score. destruct (level_of_total score) as [l Hl].
    exists l. split; [assumption|].
    intros l' Hl'. exact (level_of_unique score l' l Hl' Hl).
Qed.

Lemma update_proficiency_consistent_witness :
  live fresh_world "s1" fresh_session /\
  exists w' s',
    SessionService.update_proficiency "s1" 30 fresh_world = (Val true, w')
    /\ live w' "s1" s'
    /\ proficiency_score s'
       = Z.max 0 (Z.min 100 (proficiency_score fresh_session + 30))
    /\ 0 <= proficiency_score s' <= 100
    /\ level_of (proficiency_score s') (difficulty_level s')
    /\ (forall score, exists l, level_of score l
                               /\ forall l', level_of score l' -> l' = l).
Proof.
  assert (H : live fresh_world "s1" fresh_session) by (vm_compute; reflexivity).
  split; [exact H|].
  exact (update_proficiency_consistent fresh_world "s1" fresh_session 30 H).
Defined.

(** ** Proficiency estimator, continued *)

(** C2 (as stated) fails: on an advanced session the empty utterance is
    scored by the short-sentence rule and loses two points. *)
Lemma empty_utterance_advanced_loses_points :
  score_change (_analyze_proficiency "" (sample_session "advanced" 80)) = -2
  /\ score_change (_analyze_proficiency "" (sample_session "advanced" 80)) <> 0.
Proof. split; [reflexivity | discriminate]. Qed.

(** C2 (amended). For every session, the estimator applied to the empty
    utterance returns -2 when the current level is advanced, -1 when it is
    intermediate, and 0 for every other level (beginner in particular). *)
Theorem empty_utterance_delta (s : session) :
  score_change (_analyze_proficiency "" s) =
  if String.eqb (difficulty_level s) "advanced" then -2
  else if String.eqb (difficulty_level s) "intermediate" then -1
  else 0.
Proof.
  unfold _analyze_proficiency. cbn.
  destruct (String.eqb (difficulty_level s) "advanced");
    destruct (String.eqb (difficulty_level s) "intermediate"); reflexivity.
Qed.

(** C10. The score change computed by the estimator does not depend on the
    current proficiency score: two sessions at the same difficulty level get
    the same change (and the same indicators) for the same utterance,
    whatever their scores. *)
Theorem analyze_independent_of_score
        (message : string) (s1 s2 : session) :
  difficulty_level s1 = difficulty_level s2 ->
  score_change (_analyze_proficiency message s1)
  = score_change (_analyze_proficiency message s2)
  /\ _analyze_proficiency message (set_proficiency_score (proficiency_score s2) s1)
     = _analyze_proficiency message s1.
Proof.
  intros Hlevel. split.
  - now rewrite (analyze_level_only message s1 s2 Hlevel).
  - now apply analyze_level_only.
Qed.

Lemma analyze_independent_of_score_witness :
  difficulty_level (sample_session "beginner" 10)
  = difficulty_level (sample_session "beginner" 39)
  /\ score_change
       (_analyze_proficiency "Extraordinary vocabulary demonstrates proficiency"
          (sample_session "beginner" 10)) = 5
  /\ score_change
       (_analyze_proficiency "Extraordinary vocabulary demonstrates proficiency"
          (sample_session "beginner" 39)) = 5.
Proof.
  assert (H : difficulty_level (sample_session "beginner" 10)
              = difficulty_level (sample_session "beginner" 39))
    by reflexivity.
  split; [exact H|].
  destruct (analyze_independent_of_score
              "Extraordinary vocabulary demonstrates proficiency"
              (sample_session "beginner" 10) (sample_session "beginner" 39) H)
    as [Heq _].
  split; [vm_compute; reflexivity|].
  rewrite <- Heq. vm_compute. reflexivity.
Defined.

(** ** Strategy selection *)

Lemma question_mark_lower_char (c : ascii) :
  Ascii.eqb "?" (Py.lower_char c) = Ascii.eqb "?" c.
Proof. destruct c as [[] [] [] [] [] [] [] []]; reflexivity. Qed.

Lemma question_mark_lower (m : string) :
  Py.contains_char "?" (Py.lower m) = Py.contains_char "?" m.
Proof.
  induction m as [|c m IH]; [reflexivity|].
  cbn [Py.lower Py.contains_char]. now rewrite question_mark_lower_char, IH.
Qed.

Section Strategy.

Variable model : chat_messages -> option string.
Variable prompts : TeachingPrompts.

(** [_generate_adaptive_response] leaves the world alone. *)
Lemma generate_world (message : string) (s : session)
      (results : list scored_result) (w : world) :
  snd (_generate_adaptive_response model prompts message s results w) = w.
Proof.
  unfold _generate_adaptive_response, bind, call, ret, raise.
  repeat case_match; simplify_eq; cbn in *; try reflexivity;
    repeat case_match; simplify_eq; reflexivity.
Qed.

Lemma generate_strategy (message : string) (s : session)
      (results : list scored_result) (w : world) (r : model_response) :
  fst (_generate_adaptive_response model prompts message s results w) = Val r ->
  response_strategy r = spec_strategy (interaction_count s) message.
Proof.
  unfold _generate_adaptive_response, spec_strategy, bind, call, ret, raise.
  rewrite question_mark_lower.
  repeat case_match; simplify_eq; cbn in *; intros; simplify_eq;
    try reflexivity; repeat case_match; simplify_eq; reflexivity.
Qed.

Lemma generate_answers (message : string) (s : session)
      (results : list scored_result) (w : world) :
  prompts_answer prompts -> (forall m, is_Some (model m)) ->
  exists r,
    _generate_adaptive_response model prompts message s results w
    = (Val r, w).
Proof.
  intros Hp Hm.
  unfold _generate_adaptive_response, bind, call, ret, raise.
  destruct (Hp (difficulty_level s))
    as ([p1 ->] & [p2 ->] & [p3 ->] & [p4 ->] & [p5 ->]).
  repeat match goal with
         | |- context [if ?b then _ else _] => destruct b
         end; cbn;
    match goal with
    | |- context [model ?m] => destruct (Hm m) as [text ->]
    end; eauto.
Qed.

Lemma generate_model_fails (message : string) (s : session)
      (results : list scored_result) (w : world) :
  (forall m, model m = None) ->
  exists e,
    _generate_adaptive_response model prompts message s results w
    = (Exn e, w).
Proof.
  intros Hm.
  unfold _generate_adaptive_response, bind, call, ret, raise.
  repeat case_match; simplify_eq; cbn in *; eauto;
    rewrite Hm in *; simplify_eq; eauto.
Qed.

End Strategy.

(** C5. The strategy returned by [_generate_adaptive_response] is the one
    the priority list of the specification assigns to the interaction counter
    and the utterance alone (first matching rule wins); a counter below 3
    gives assessment whatever the utterance, so counter 0 does; and from
    counter 3 on the utterance "Can you explain the past tense?" gives
    concept_teaching. With collaborators that answer, a result is always
    produced. *)
Theorem strategy_selection_priority :
  (forall model prompts message s results w r,
      fst (_generate_adaptive_response model prompts message s results w)
      = Val r ->
      response_strategy r = spec_strategy (interaction_count s) message)
  /\ (forall model prompts message s results w r,
         interaction_count s < 3 ->
         fst (_generate_adaptive_response model prompts message s results w)
         = Val r ->
         response_strategy r = "assessment")
  /\ (forall model prompts s results w r,
         3 <= interaction_count s ->
         fst (_generate_adaptive_response model prompts
                "Can you explain the past tense?" s results w) = Val r ->
         response_strategy r = "concept_teaching")
  /\ (forall model prompts message s results w,
         prompts_answer prompts -> (forall m, is_Some (model m)) ->
         exists r,
           _generate_adaptive_response model prompts message s results w
           = (Val r, w)).
Proof.
  split; [|split; [|split]].
  - apply generate_strategy.
  - intros model prompts message s results w r Hlt Hrun.
    rewrite (generate_strategy _ _ _ _ _ _ _ Hrun). unfold spec_strategy.
    apply Z.ltb_lt in Hlt. now rewrite Hlt.
  - intros model prompts s results w r Hge Hrun.
    rewrite (generate_strategy _ _ _ _ _ _ _ Hrun). unfold spec_strategy.
    apply Z.ltb_ge in Hge. now rewrite Hge.
  - intros model prompts message s results w. apply generate_answers.
Qed.

Lemma strategy_selection_priority_witness :
  let s0 := fresh_session in
  let s3 := set_interaction_count 3 fresh_session in
  let run message s :=
    fst (_generate_adaptive_response fake_model fake_prompts message s []
           fresh_world) in
  interaction_count s0 < 3
  /\ 3 <= interaction_count s3
  /\ run "one more quiz please" s0
     = Val {| response_content := "Tell me more.";
              response_strategy := "assessment" |}
  /\ run "Can you explain the past tense?" s3
     = Val {| response_content := "Tell me more.";
              response_strategy := "concept_teaching" |}
  /\ response_strategy {| response_content := "Tell me more.";
                          response_strategy := "assessment" |}
     = "assessment"
  /\ response_strategy {| response_content := "Tell me more.";
                          response_strategy := "concept_teaching" |}
     = "concept_teaching".
Proof.
  intros s0 s3 run.
  assert (H0 : interaction_count s0 < 3) by (cbn; lia).
  assert (H3 : 3 <= interaction_count s3) by (cbn; lia).
  assert (R0 : run "one more quiz please" s0
               = Val {| response_content := "Tell me more.";
                        response_strategy := "assessment" |})
    by (vm_compute; reflexivity).
  assert (R3 : run "Can you explain the past tense?" s3
               = Val {| response_content := "Tell me more.";
                        response_strategy := "concept_teaching" |})
    by (vm_compute; reflexivity).
  destruct strategy_selection_priority as (_ & Hlow & Hex & _).
  refine (conj H0 (conj H3 (conj R0 (conj R3 (conj _ _))))).
  - exact (Hlow fake_model fake_prompts "one more quiz please" s0 []
             fresh_world _ H0 R0).
  - exact (Hex fake_model fake_prompts s3 [] fresh_world _ H3 R3).
Defined.

(** ** Retrieval *)

Lemma insert_desc_perm (x : scored_result) (l : list scored_result) :
  Permutation (insert_desc x l) (x :: l).
Proof.
  induction l as [|y l IH]; cbn; [reflexivity|].
  destruct (Py.Qgtb (score y) (score x)); [|reflexivity].
  rewrite IH. apply perm_swap.
Qed.

Lemma sorted_desc_perm (l : list scored_result) :
  Permutation (sorted_desc l) l.
Proof.
  induction l as [|x l IH]; cbn; [reflexivity|].
  rewrite insert_desc_perm. now constructor.
Qed.

Lemma Qgtb_false (a b : Q) : Py.Qgtb a b = false -> (a <= b)%Q.
Proof.
  unfold Py.Qgtb. intros H. apply negb_false_iff in H.
  now apply Qle_bool_iff.
Qed.

Lemma Qgtb_true (a b : Q) : Py.Qgtb a b = true -> (b <= a)%Q.
Proof.
  unfold Py.Qgtb. intros H. apply negb_true_iff in H.
  destruct (Qlt_le_dec b a) as [Hlt|Hle]; [now apply Qlt_le_weak|].
  apply Qle_bool_iff in Hle. congruence.
Qed.

Lemma insert_desc_sorted (x : scored_result) (l : list scored_result) :
  Sorted (fun a b => (score b <= score a)%Q) l ->
  Sorted (fun a b => (score b <= score a)%Q) (insert_desc x l).
Proof.
  induction l as [|y l IH]; intros Hs; cbn; [repeat constructor|].
  destruct (Py.Qgtb (score y) (score x)) eqn:Hc.
  - inversion Hs as [|? ? Hl Hhd]; subst. constructor; [now apply IH|].
    destruct l as [|z l]; cbn.
    + constructor. now apply Qgtb_true.
    + destruct (Py.Qgtb (score z) (score x)).
      * inversion Hhd; subst. now constructor.
      * constructor. now apply Qgtb_true.
  - constructor; [assumption|]. constructor. now apply Qgtb_false.
Qed.

Lemma sorted_desc_sorted (l : list scored_result) :
  Sorted (fun a b => (score b <= score a)%Q) (sorted_desc l).
Proof.
  induction l as [|x l IH]; cbn; [constructor|].
  now apply insert_desc_sorted.
Qed.

(** All snippets carry the same score, so sorting them changes nothing. *)
Lemma sorted_desc_snippets (docs : list document) :
  sorted_desc (map snippet docs) = map snippet docs.
Proof.
  induction docs as [|d ds IH]; [reflexivity|].
  change (sorted_desc (map snippet (d :: ds)))
    with (insert_desc (snippet d) (sorted_desc (map snippet ds))).
  rewrite IH. now destruct ds.
Qed.

Section Retrieval.

Variable embed_query : string -> option (list Q).

(** What [hybrid_search] returns, case by case. *)
Lemma hybrid_search_run (query : string)
      (metadata_filters : option (list (string * string)))
      (limit : nat) (w : world) :
  hybrid_search embed_query query metadata_filters limit w =
  match embed_query query with
  | None => (Val [], w)
  | Some _ =>
      let hits :=
        map snippet
            (firstn limit
               (List.filter (search_predicate metadata_filters)
                  (documents w))) in
      match schedule w with
      | [] => (Val hits, w)
      | Stored :: rest => (Val hits, with_schedule rest w)
      | Rejected :: rest => (Val [], with_schedule rest w)
      | Unreachable :: rest => (Val [], with_schedule rest w)
      end
  end.
Proof.
  unfold hybrid_search, try_except, bind, call, Supabase.select_documents,
    Supabase.next_outcome, bind, ret, raise.
  destruct (embed_query query) as [e|]; [|reflexivity].
  fold (search_predicate metadata_filters). fold snippet.
  destruct (schedule w) as [|[| |] rest]; cbn;
    rewrite ?sorted_desc_snippets; reflexivity.
Qed.

(** A search never raises and touches nothing but the request schedule. *)
Lemma hybrid_search_frame (query : string)
      (metadata_filters : option (list (string * string)))
      (limit : nat) (w : world) :
  exists results sch,
    hybrid_search embed_query query metadata_filters limit w
    = (Val results, with_schedule sch w).
Proof.
  rewrite hybrid_search_run.
  destruct (embed_query query); [|exists [], (schedule w); now destruct w].
  destruct (schedule w) as [|[| |] rest] eqn:Hs; cbn; eauto.
  eexists _, []. rewrite <- Hs. now destruct w.
Qed.

End Retrieval.

(** ** Orchestrator *)

Lemma live_with_schedule (w : world) (sch : list outcome) (sid : string)
      (s : session) :
  live w sid s -> live (with_schedule sch w) sid s.
Proof. intros H. apply live_lookup. apply live_lookup in H. exact H. Qed.

Lemma bind_val {A B} (m : M A) (k : A -> M B) (w w' : world) (a : A) :
  m w = (Val a, w') -> bind m k w = k a w'.
Proof. intros H. unfold bind. now rewrite H. Qed.

Lemma bind_exn {A B} (m : M A) (k : A -> M B) (w w' : world) (e : string) :
  m w = (Exn e, w') -> bind m k w = (Exn e, w').
Proof. intros H. unfold bind. now rewrite H. Qed.

Section Orchestrator.

Variable embed_query : string -> option (list Q).
Variable model : chat_messages -> option string.
Variable prompts : TeachingPrompts.

Lemma process_absent (w : world) (sid message : string) :
  absent w sid ->
  process_student_message embed_query model prompts sid message w
  = (Val (Error "Invalid session"), w).
Proof.
  intros H. unfold process_student_message, try_except.
  now rewrite (bind_val _ _ _ _ _ H).
Qed.

Lemma process_inactive (w : world) (sid message : string) (s : session) :
  live w sid s -> session_status s <> "active" ->
  process_student_message embed_query model prompts sid message w
  = (Val (Error "Session is not active"), w).
Proof.
  intros H Hs. unfold process_student_message, try_except.
  rewrite (bind_val _ _ _ _ _ H).
  apply String.eqb_neq in Hs. now rewrite Hs.
Qed.

Lemma process_active (w : world) (sid message : string) (s : session) :
  live w sid s -> session_status s = "active" ->
  exists s0 w1 results,
    live w1 sid s0
    /\ (exists w0,
          search_by_difficulty embed_query message (difficulty_level s0)
            (subject s0) w0 = (Val results, w1))
    /\ (forall k, history_at w1 k = history_at w k)
    /\ conversation_history s0 = conversation_history s
    /\ interaction_count s0 = interaction_count s
    /\ process_student_message embed_query model prompts sid message w =
       match _generate_adaptive_response model prompts message s0 results w1
       with
       | (Val r, _) =>
           let student :=
             StudentTurn message (now w1) (difficulty_level s0)
                         (proficiency_score s0) in
           let teacher :=
             TeacherTurn (response_content r) (now w1) (response_strategy r)
                         (Z.of_nat (length results)) in
           (Val (Reply (response_content r) (difficulty_level s0)
                       (proficiency_score s0) (response_strategy r) sid
                       (interaction_count s0)),
            store sid (appended teacher (appended student s0))
                  (store sid (appended student s0) w1))
       | (Exn _, _) => (Val (Error "Failed to process message"), w1)
       end.
Proof.
  intros H Hs. unfold process_student_message, try_except.
  rewrite (bind_val _ _ _ _ _ H).
  apply String.eqb_eq in Hs. rewrite Hs. cbn [negb].
  set (delta := score_change (_analyze_proficiency message s)).
  assert (Hrefresh : exists s0 w0,
    (if negb (delta =? 0) then
       SessionService.update_proficiency sid delta ;;;
       refreshed <- SessionService.get_session sid ;;
       call "NoneType is not subscriptable" refreshed
     else ret s) w = (Val s0, w0)
    /\ live w0 sid s0
    /\ (forall k, history_at w0 k = history_at w k)
    /\ conversation_history s0 = conversation_history s
    /\ interaction_count s0 = interaction_count s).
  { destruct (delta =? 0); cbn [negb].
    - exists s, w. repeat split; assumption || reflexivity.
    - destruct (update_proficiency_live w sid s delta H)
        as (s1 & Hup & _ & _ & Hh & Hc & _).
      exists s1, (store sid s1 w). repeat split; try assumption.
      + rewrite (bind_val _ _ _ _ _ Hup).
        now rewrite (bind_val _ _ _ _ _ (live_store w sid s1)).
      + apply live_store.
      + intros k. rewrite history_at_store. case_decide; [|reflexivity].
        subst k. apply live_lookup in H as (d & Hd & _).
        unfold history_at. rewrite Hd. cbn. now rewrite Hh. }
  destruct Hrefresh as (s0 & w0 & Hrun0 & Hlive0 & Hhist0 & Hh0 & Hc0).
  rewrite (bind_val _ _ _ _ _ Hrun0).
  unfold search_by_difficulty.
  destruct (hybrid_search_frame embed_query message
              (Some [("subject", subject s0);
                     ("difficulty_level", difficulty_level s0)]) 5 w0)
    as (results & sch & Hsearch).
  rewrite (bind_val _ _ _ _ _ Hsearch).
  set (w1 := with_schedule sch w0).
  assert (Hlive1 : live w1 sid s0) by now apply live_with_schedule.
  exists s0, w1, results.
  split; [assumption|]. split; [now exists w0|].
  repeat split; try assumption.
  pose proof (generate_world model prompts message s0 results w1) as Hw.
  destruct (_generate_adaptive_response model prompts message s0 results w1)
    as [[r|e] w2] eqn:Hgen; cbn in Hw; subst w2.
  - rewrite (bind_val _ _ _ _ _ Hgen).
    rewrite (bind_val datetime_now _ w1 w1 (now w1) eq_refl).
    rewrite (bind_val _ _ _ _ _ (add_to_conversation_live w1 sid s0 _ Hlive1)).
    set (w2 := store sid _ w1).
    rewrite (bind_val datetime_now _ w2 w2 (now w1) eq_refl).
    rewrite (bind_val _ _ _ _ _
               (add_to_conversation_live w2 sid _ _ (live_store w1 sid _))).
    reflexivity.
  - now rewrite (bind_exn _ _ _ _ _ Hgen).
Qed.

(** Whatever the collaborators do, a submission returns a dictionary:
    an error with every conversation log as it was, or a reply with the
    student turn and the teacher turn appended, in this order. *)
Lemma process_outcome (w : world) (sid message : string) :
  (exists e w',
      process_student_message embed_query model prompts sid message w
      = (Val (Error e), w')
      /\ forall k, history_at w' k = history_at w k)
  \/ (exists s s0 s' w' r (results : list scored_result) t1 t2,
         live w sid s
         /\ process_student_message embed_query model prompts sid message w
            = (Val (Reply (response_content r) (difficulty_level s0)
                          (proficiency_score s0) (response_strategy r) sid
                          (interaction_count s0)), w')
         /\ live w' sid s'
         /\ conversation_history s'
            = (conversation_history s
               ++ [StudentTurn message t1 (difficulty_level s0)
                               (proficiency_score s0);
                   TeacherTurn (response_content r) t2 (response_strategy r)
                               (Z.of_nat (length results))])%list
         /\ interaction_count s' = interaction_count s + 2
         /\ response_strategy r = spec_strategy (interaction_count s) message
         /\ forall k, k <> SessionService.key sid ->
                      history_at w' k = history_at w k).
Proof.
  destruct (live_or_absent w sid) as [[s H]|H].
  2:{ left. exists "Invalid session", w.
      split; [apply process_absent; exact H|reflexivity]. }
  destruct (String.eqb_spec (session_status s) "active") as [Hs|Hs].
  2:{ left. exists "Session is not active", w.
      split; [apply (process_inactive w sid message s H Hs)|reflexivity]. }
  destruct (process_active w sid message s H Hs)
    as (s0 & w1 & results & Hlive1 & Hsearch & Hhist & Hh0 & Hc0 & Hrun).
  destruct (_generate_adaptive_response model prompts message s0 results w1)
    as [[r|e] w2] eqn:Hgen.
  - right.
    exists s, s0. do 2 eexists. exists r, results, (now w1), (now w1).
    split; [assumption|]. split; [exact Hrun|].
    split; [apply live_store|]. cbn.
    split; [now rewrite Hh0, <- app_assoc|].
    split; [rewrite Hc0; lia|].
    split.
    + rewrite <- Hc0.
      apply (generate_strategy model prompts message s0 results w1).
      now rewrite Hgen.
    + intros k Hk. rewrite !history_at_store.
      case_decide; [congruence|]. apply Hhist.
  - left. exists "Failed to process message", w1. now split.
Qed.

Lemma process_model_fails (w : world) (sid message : string) :
  (forall m, model m = None) ->
  exists e w',
    process_student_message embed_query model prompts sid message w
    = (Val (Error e), w')
    /\ forall k, history_at w' k = history_at w k.
Proof.
  intros Hm.
  destruct (live_or_absent w sid) as [[s H]|H].
  2:{ exists "Invalid session", w.
      split; [apply process_absent; exact H|reflexivity]. }
  destruct (String.eqb_spec (session_status s) "active") as [Hs|Hs].
  2:{ exists "Session is not active", w.
      split; [apply (process_inactive w sid message s H Hs)|reflexivity]. }
  destruct (process_active w sid message s H Hs)
    as (s0 & w1 & results & Hlive1 & Hsearch & Hhist & Hh0 & Hc0 & Hrun).
  destruct (generate_model_fails model prompts message s0 results w1 Hm)
    as [e Hgen].
  rewrite Hgen in Hrun. eauto.
Qed.

Lemma process_success (w : world) (sid message : string) (s : session) :
  live w sid s -> session_status s = "active" ->
  prompts_answer prompts -> (forall m, is_Some (model m)) ->
  exists s0 s' w' r (results : list scored_result) t1 t2,
    process_student_message embed_query model prompts sid message w
    = (Val (Reply (response_content r) (difficulty_level s0)
                  (proficiency_score s0) (response_strategy r) sid
                  (interaction_count s0)), w')
    /\ live w' sid s'
    /\ conversation_history s'
       = (conversation_history s
          ++ [StudentTurn message t1 (difficulty_level s0)
                          (proficiency_score s0);
              TeacherTurn (response_content r) t2 (response_strategy r)
                          (Z.of_nat (length results))])%list
    /\ interaction_count s' = interaction_count s + 2
    /\ exists w0 w1,
        search_by_difficulty embed_query message (difficulty_level s0)
          (subject s0) w0 = (Val results, w1).
Proof.
  intros H Hs Hp Hm.
  destruct (process_active w sid message s H Hs)
    as (s0 & w1 & results & Hlive1 & Hsearch & Hhist & Hh0 & Hc0 & Hrun).
  destruct (generate_answers model prompts message s0 results w1 Hp Hm)
    as [r Hgen].
  rewrite Hgen in Hrun.
  exists s0. do 2 eexists. exists r, results, (now w1), (now w1).
  split; [exact Hrun|]. split; [apply live_store|]. cbn.
  split; [now rewrite Hh0, <- app_assoc|].
  split; [rewrite Hc0; lia|].
  destruct Hsearch as [w0 Hsearch]. eauto.
Qed.

End Orchestrator.

(** ** Ending a session *)

Lemma absent_lookup (w : world) (sid : string) :
  redis w !! SessionService.key sid = None -> absent w sid.
Proof.
  intros H. unfold absent, SessionService.get_session, Redis.get.
  now rewrite H.
Qed.

(** The three writers never raise and make one request each. *)
Lemma store_conversation_run (s : session) (w : world) :
  exists b w',
    SessionService._store_conversation_history s w = (Val b, w')
    /\ sink_step b w w'.
Proof.
  unfold SessionService._store_conversation_history, try_except,
    Supabase.insert, Supabase.next_outcome, bind, sink_step, outcome_at.
  destruct w as [r d c sm ex sch t].
  destruct sch as [|[| |] rest]; cbn; eauto 10.
Qed.

Lemma store_summary_run (s : session) (w : world) :
  exists b w',
    SessionService._store_session_summary s w = (Val b, w')
    /\ sink_step b w w'.
Proof.
  unfold SessionService._store_session_summary, try_except,
    Supabase.insert, Supabase.next_outcome, bind, sink_step, outcome_at.
  destruct w as [r d c sm ex sch t].
  destruct sch as [|[| |] rest]; cbn; eauto 10.
Qed.

Lemma store_experience_run (sid uid : string) (e : gmap string string)
      (w : world) :
  exists b w',
    SessionService._store_user_experience sid uid e w = (Val b, w')
    /\ sink_step b w w'.
Proof.
  unfold SessionService._store_user_experience, try_except,
    Supabase.insert, Supabase.next_outcome, bind, datetime_now, sink_step,
    outcome_at.
  destruct w as [r d c sm ex sch t].
  destruct sch as [|[| |] rest]; cbn; eauto 10.
Qed.

Lemma outcome_at_tl (w w' : world) (i : nat) :
  schedule w' = tl (schedule w) -> outcome_at w' i = outcome_at w (S i).
Proof.
  unfold outcome_at. intros ->. destruct (schedule w); [now destruct i|].
  reflexivity.
Qed.

Lemma end_session_absent (w : world) (sid : string)
      (ue : option (gmap string string)) :
  absent w sid -> SessionService.end_session sid ue w = (Val false, w).
Proof.
  intros H. unfold SessionService.end_session, try_except.
  now rewrite (bind_val _ _ _ _ _ H).
Qed.

(** Ending a live session: the result is the conjunction of the two write
    results, and the session is gone from the live store in every case. *)
Lemma end_session_live (w : world) (sid : string) (s : session)
      (ue : option (gmap string string)) :
  live w sid s ->
  exists w',
    SessionService.end_session sid ue w
    = (Val (stored (outcome_at w 0)
            && stored (outcome_at w
                         (if SessionService.truthy ue then 2 else 1))), w')
    /\ redis w' = delete (SessionService.key sid) (redis w)
    /\ absent w' sid.
Proof.
  intros H. unfold SessionService.end_session, try_except.
  rewrite (bind_val _ _ _ _ _ H).
  rewrite (bind_val datetime_now _ w w (now w) eq_refl).
  set (s1 := set_session_duration _ _).
  destruct (store_conversation_run s1 w) as (b1 & w1 & Hr1 & -> & R1 & _ & S1).
  rewrite (bind_val _ _ _ _ _ Hr1).
  assert (Hmid : exists x w2,
    (if SessionService.truthy ue
     then SessionService._store_user_experience sid (user_id s1)
            (default ∅ ue)
     else ret false) w1 = (Val x, w2)
    /\ redis w2 = redis w
    /\ outcome_at w2 0
       = outcome_at w (if SessionService.truthy ue then 2 else 1)).
  { destruct (SessionService.truthy ue).
    - destruct (store_experience_run sid (user_id s1) (default ∅ ue) w1)
        as (x & w2 & Hr & _ & R2 & _ & S2).
      exists x, w2. split; [exact Hr|]. split; [congruence|].
      now rewrite (outcome_at_tl w1 w2 0 S2), (outcome_at_tl w w1 1 S1).
    - exists false, w1. split; [reflexivity|]. split; [assumption|].
      now rewrite (outcome_at_tl w w1 0 S1). }
  destruct Hmid as (x & w2 & Hr2 & R2 & O2).
  rewrite (bind_val _ _ _ _ _ Hr2).
  destruct (store_summary_run s1 w2) as (b3 & w3 & Hr3 & -> & R3 & _ & _).
  rewrite (bind_val _ _ _ _ _ Hr3).
  unfold bind, Redis.delete, ret. cbn.
  eexists. split; [now rewrite O2|]. split.
  - cbn. congruence.
  - apply absent_lookup. cbn. apply lookup_delete_eq.
Qed.

(** ** The claims about sessions, submissions and retrieval *)


(** C4 (as stated) fails: when the conversation-history insert raises,
    [end_session] returns False, yet the live session is gone afterwards, the
    log was not stored, and the retry finds no session. *)
Lemma failed_end_drops_live_session :
  let first := SessionService.end_session "s1" None outage_world in
  live outage_world "s1" fresh_session
  /\ fst first = Val false
  /\ tbl_conversation_history (snd first) = []
  /\ absent (snd first) "s1"
  /\ ~ live (snd first) "s1" fresh_session.
Proof.
  cbv zeta. split; [vm_compute; reflexivity|]. split; [reflexivity|].
  split; [reflexivity|]. split; [vm_compute; reflexivity|].
  intros H. vm_compute in H. discriminate H.
Qed.

(** C4 (amended). If a durable write performed during end fails (the
    conversation-history insert or the session-summary insert raises or
    returns no data), [end_session] surfaces an overall failure to the
    caller; the live session record has been deleted by then all the same,
    so a subsequent retry of end finds no live session and returns the
    not-found outcome, changing nothing. *)
Theorem end_session_write_failure
        (w : world) (sid : string) (s : session)
        (ue : option (gmap string string)) :
  live w sid s ->
  outcome_at w 0 <> Stored
  \/ outcome_at w (if SessionService.truthy ue then 2 else 1) <> Stored ->
  exists w',
    SessionService.end_session sid ue w = (Val false, w')
    /\ absent w' sid
    /\ forall ue', SessionService.end_session sid ue' w' = (Val false, w').
Proof.
  intros H Hfail.
  destruct (end_session_live w sid s ue H) as (w' & Hrun & _ & Habs).
  exists w'. split; [|split; [exact Habs|]].
  - rewrite Hrun. f_equal. f_equal.
    destruct Hfail as [Hf|Hf];
      [destruct (outcome_at w 0)
      |destruct (outcome_at w (if SessionService.truthy ue then 2 else 1))];
      try congruence; cbn; try reflexivity; apply andb_false_r.
  - intros ue'. now apply end_session_absent.
Qed.

Lemma end_session_write_failure_witness :
  live outage_world "s1" fresh_session
  /\ outcome_at outage_world 0 <> Stored
  /\ exists w',
      SessionService.end_session "s1" None outage_world = (Val false, w')
      /\ absent w' "s1"
      /\ forall ue', SessionService.end_session "s1" ue' w' = (Val false, w').
Proof.
  assert (H : live outage_world "s1" fresh_session)
    by (vm_compute; reflexivity).
  assert (Hf : outcome_at outage_world 0 <> Stored) by (cbn; discriminate).
  split; [exact H|]. split; [exact Hf|].
  exact (end_session_write_failure outage_world "s1" fresh_session None H
           (or_introl Hf)).
Defined.

(** C8. [end_session] on an unknown session returns the not-found outcome
    (False) and changes nothing; a first call always returns a boolean, and
    whatever that first call did, a second call on the same session returns
    the not-found outcome and leaves the world exactly as the first call
    left it. *)
Theorem end_session_idempotent :
  (forall w sid ue,
      absent w sid -> SessionService.end_session sid ue w = (Val false, w))
  /\ (forall w sid ue,
         exists b w',
           SessionService.end_session sid ue w = (Val b, w')
           /\ absent w' sid
           /\ forall ue',
               SessionService.end_session sid ue' w' = (Val false, w')).
Proof.
  split; [exact end_session_absent|].
  intros w sid ue.
  destruct (live_or_absent w sid) as [[s H]|H].
  - destruct (end_session_live w sid s ue H) as (w' & Hrun & _ & Habs).
    eexists _, w'. split; [exact Hrun|]. split; [exact Habs|].
    intros ue'. now apply end_session_absent.
  - exists false, w. split; [now apply end_session_absent|].
    split; [exact H|]. intros ue'. now apply end_session_absent.
Qed.

Lemma end_session_idempotent_witness :
  absent fresh_world "nobody"
  /\ SessionService.end_session "nobody" None fresh_world
     = (Val false, fresh_world)
  /\ exists b w',
      SessionService.end_session "s1" None fresh_world = (Val b, w')
      /\ absent w' "s1"
      /\ forall ue', SessionService.end_session "s1" ue' w' = (Val false, w').
Proof.
  assert (H : absent fresh_world "nobody") by (vm_compute; reflexivity).
  destruct end_session_idempotent as [Hunknown Htwice].
  split; [exact H|]. split.
  - exact (Hunknown fresh_world "nobody" None H).
  - exact (Htwice fresh_world "s1" None).
Defined.

(** C7. If the generation collaborator fails while a student message is
    being processed, the call returns an error dictionary and every
    conversation log is as it was before the call. More generally, whatever
    the collaborators do, the call returns a dictionary and never raises:
    either an error with no turn recorded, or a reply with both the student
    turn and the teacher turn recorded. *)
Theorem generation_failure_leaves_history
        (embed_query : string -> option (list Q))
        (model : chat_messages -> option string) (prompts : TeachingPrompts)
        (w : world) (sid message : string) :
  ((forall m, model m = None) ->
   exists e w',
     process_student_message embed_query model prompts sid message w
     = (Val (Error e), w')
     /\ forall k, history_at w' k = history_at w k)
  /\ ((exists e w',
         process_student_message embed_query model prompts sid message w
         = (Val (Error e), w')
         /\ forall k, history_at w' k = history_at w k)
      \/ (exists s s' w' answer student teacher,
             live w sid s
             /\ process_student_message embed_query model prompts sid message w
                = (Val answer, w')
             /\ (forall e, answer <> Error e)
             /\ live w' sid s'
             /\ conversation_history s'
                = (conversation_history s ++ [student; teacher])%list
             /\ turn_type student = "student"
             /\ turn_type teacher = "teacher"
             /\ forall k, k <> SessionService.key sid ->
                          history_at w' k = history_at w k)).
Proof.
  split; [apply process_model_fails|].
  destruct (process_outcome embed_query model prompts w sid message)
    as [Herr|(s & s0 & s' & w' & r & results & t1 & t2
              & Hl & Hrun & Hl' & Hh & _ & _ & Hk)];
    [now left|right].
  exists s, s', w'. do 3 eexists.
  split; [exact Hl|]. split; [exact Hrun|]. split; [discriminate|].
  split; [exact Hl'|]. split; [exact Hh|]. now repeat split.
Qed.

Lemma generation_failure_leaves_history_witness :
  (forall m, failing_model m = None)
  /\ exists e w',
      process_student_message fake_embed failing_model fake_prompts
        "s1" "hello there" fresh_world = (Val (Error e), w')
      /\ forall k, history_at w' k = history_at fresh_world k.
Proof.
  assert (Hm : forall m, failing_model m = None) by reflexivity.
  split; [exact Hm|].
  exact (proj1 (generation_failure_leaves_history fake_embed failing_model
                  fake_prompts fresh_world "s1" "hello there") Hm).
Defined.

(** What does hold of the ranking: every returned snippet carries the
    placeholder score 0.8, which lies in [0,1], and the list is in
    descending score order. *)
Lemma hybrid_search_scores
      (embed_query : string -> option (list Q)) (query : string)
      (metadata_filters : option (list (string * string))) (limit : nat)
      (w : world) :
  exists results w',
    hybrid_search embed_query query metadata_filters limit w
    = (Val results, w')
    /\ Forall (fun r => score r = 0.8%Q /\ (0 <= score r <= 1)%Q) results
    /\ Sorted (fun a b => (score b <= score a)%Q) results.
Proof.
  assert (Hall : forall docs,
    Forall (fun r => score r = 0.8%Q /\ (0 <= score r <= 1)%Q)
           (map snippet docs)).
  { intros docs. induction docs as [|d ds IH]; cbn; constructor;
      [cbn; repeat split; discriminate | exact IH]. }
  assert (Hsorted : forall docs,
    Sorted (fun a b => (score b <= score a)%Q) (map snippet docs)).
  { intros docs. rewrite <- sorted_desc_snippets. apply sorted_desc_sorted. }
  rewrite hybrid_search_run.
  destruct (embed_query query); [|eexists _, _; now repeat split].
  destruct (schedule w) as [|[| |] rest]; cbn; eexists _, _;
    (split; [reflexivity|]); split; auto.
Qed.

(** C6 (the code departs from it). With two stored lessons and a query whose
    embedding coincides with the second lesson's and is orthogonal to the
    first one's, [hybrid_search] returns the lessons in insertion order, both
    with the placeholder score 0.8: the cosine similarities, 0 for the first
    lesson and 1 for the second, play no part in the ranking. *)
Theorem hybrid_search_ignores_similarity :
  hybrid_search axis_embed "past tense" None 5 library_world
  = (Val [ {| content := "Nouns name people, places and things.";
              metadata := ∅; score := 0.8 |};
           {| content := "The past tense describes finished actions.";
              metadata := ∅; score := 0.8 |} ],
     library_world)
  /\ axis_embed "past tense" = Some [0%Q; 1%Q]
  /\ spec_cosine_is [0%Q; 1%Q] (doc_embedding lesson_nouns) 0
  /\ spec_cosine_is [0%Q; 1%Q] (doc_embedding lesson_past_tense) 1.
Proof.
  split; [reflexivity|]. split; [reflexivity|].
  split; split; vm_compute; congruence.
Qed.

(** * Further properties of the code *)

(** ** Session store: creation, mutation, expiry *)

Lemma update_proficiency_run (w : world) (sid : string) (s : session)
      (delta : Z) :
  live w sid s ->
  SessionService.update_proficiency sid delta w
  = (Val true, store sid (rescored delta s) w).
Proof.
  intros H. unfold SessionService.update_proficiency, bind. rewrite H.
  rewrite (update_session_live _ _ _ _ H). unfold rescored.
  now repeat case_match.
Qed.

Lemma key_injective (a b : string) :
  SessionService.key a = SessionService.key b -> a = b.
Proof. unfold SessionService.key. apply (String.app_inj "session:"). Qed.

Lemma absent_other_key (w : world) (sid : string) (s : session) (k : string) :
  k <> SessionService.key sid ->
  redis (store sid s w) !! k = redis w !! k.
Proof. intros Hk. unfold store. cbn. now rewrite lookup_insert_ne. Qed.

Lemma well_formed_rescored (delta : Z) (s : session) :
  well_formed s -> well_formed (rescored delta s).
Proof.
  intros [Hs Hl Hc Ha Hi Ho]. unfold rescored.
  set (n := Z.max 0 (Z.min 100 (proficiency_score s + delta))).
  destruct (Z.leb_spec 75 n); [|destruct (Z.leb_spec 40 n)];
    constructor; cbn; try assumption; try lia.
  - now apply level_advanced.
  - apply level_intermediate. lia.
  - now apply level_beginner.
Qed.

Lemma well_formed_appended (message : turn) (s : session) :
  well_formed s -> well_formed (appended message s).
Proof.
  intros [Hs Hl Hc Ha Hi Ho]. constructor; cbn; try assumption.
  rewrite length_app. cbn. lia.
Qed.

Lemma well_formed_set_subject (x : string) (s : session) :
  well_formed s -> well_formed (set_subject x s).
Proof. intros [Hs Hl Hc Ha Hi Ho]. now constructor. Qed.

(** X1. Called without user data ([user_data] is [None], the declared
    default), [create_session] raises and stores nothing. Called with a
    dictionary, it stores, under the returned identifier, a session with
    score 50, level intermediate, subject english, an empty log, counter 0
    and status active, created at the current time and owned by the
    [user_id] of the user data or, without one, by an anonymous identifier;
    no other key of the store changes. *)
Theorem create_session_stores_defaults
        (uuid anon_uuid : string) (user_data : option (gmap string string))
        (w : world) :
  match user_data with
  | None =>
      exists e,
        SessionService.create_session uuid anon_uuid None w = (Exn e, w)
  | Some data =>
      exists w' s,
        SessionService.create_session uuid anon_uuid (Some data) w
        = (Val uuid, w')
        /\ live w' uuid s
        /\ session_id s = uuid
        /\ user_id s = default ("anonymous_" ++ anon_uuid) (data !! "user_id")
        /\ created_at s = now w
        /\ proficiency_score s = 50
        /\ difficulty_level s = "intermediate"
        /\ subject s = "english"
        /\ conversation_history s = []
        /\ interaction_count s = 0
        /\ session_status s = "active"
        /\ now w' = now w
        /\ forall k, k <> SessionService.key uuid ->
                     redis w' !! k = redis w !! k
  end.
Proof.
  destruct user_data as [data|]; [|eexists; reflexivity].
  set (s := mkSession uuid
              (default ("anonymous_" ++ anon_uuid) (data !! "user_id"))
              (now w) data [] Config.DEFAULT_DIFFICULTY "english"
              50 0 50 "active" None None).
  exists (store uuid s w), s. split; [reflexivity|].
  split; [apply live_store|].
  repeat split. intros k Hk. now apply absent_other_key.
Qed.

(** X2. On a session that is not in the live store, [update_session],
    [add_to_conversation] and [update_proficiency] return False and change
    nothing, and a submission is answered with the invalid-session error,
    again with nothing changed. *)
Theorem absent_session_is_never_mutated
        (embed_query : string -> option (list Q))
        (model : chat_messages -> option string) (prompts : TeachingPrompts)
        (w : world) (sid : string) :
  absent w sid ->
  (forall updates,
      SessionService.update_session sid updates w = (Val false, w))
  /\ (forall message,
         SessionService.add_to_conversation sid message w = (Val false, w))
  /\ (forall delta,
         SessionService.update_proficiency sid delta w = (Val false, w))
  /\ (forall message,
         process_student_message embed_query model prompts sid message w
         = (Val (Error "Invalid session"), w)).
Proof.
  intros H. repeat split; intros.
  - now apply update_session_absent.
  - now apply add_to_conversation_absent.
  - now apply update_proficiency_absent.
  - now apply process_absent.
Qed.

Lemma absent_session_is_never_mutated_witness :
  absent fresh_world "nobody"
  /\ SessionService.update_proficiency "nobody" 5 fresh_world
     = (Val false, fresh_world)
  /\ process_student_message fake_embed fake_model fake_prompts
       "nobody" "hello" fresh_world
     = (Val (Error "Invalid session"), fresh_world).
Proof.
  assert (H : absent fresh_world "nobody") by (vm_compute; reflexivity).
  destruct (absent_session_is_never_mutated fake_embed fake_model fake_prompts
              fresh_world "nobody" H) as (_ & _ & Hp & Hm).
  split; [exact H|]. split; [apply Hp | apply Hm].
Defined.

Lemma live_at_time_store (w : world) (sid : string) (s : session) (t : Z) :
  (t <= now w + 3600 -> live (at_time t (store sid s w)) sid s)
  /\ (now w + 3600 < t -> absent (at_time t (store sid s w)) sid).
Proof.
  unfold live, absent, SessionService.get_session, Redis.get, store,
    SessionService.session_ttl. cbn. rewrite lookup_insert_eq.
  split; intros Ht.
  - apply Z.leb_le in Ht. now rewrite Ht.
  - apply Z.leb_gt in Ht. now rewrite Ht.
Qed.

(** X3. Every mutation restarts the one-hour expiry window: after
    [add_to_conversation] or [update_proficiency] on a live session at time
    [now], the mutated session is retrievable at every time up to and
    including [now + 3600] and is gone at every later time, whatever its
    deadline was before the call. *)
Theorem mutation_restarts_expiry
        (w : world) (sid : string) (s : session) (message : turn) (delta : Z)
        (t : Z) :
  live w sid s ->
  let w1 := snd (SessionService.add_to_conversation sid message w) in
  let w2 := snd (SessionService.update_proficiency sid delta w) in
  (t <= now w + 3600 ->
   live (at_time t w1) sid (appended message s)
   /\ live (at_time t w2) sid (rescored delta s))
  /\ (now w + 3600 < t ->
      absent (at_time t w1) sid /\ absent (at_time t w2) sid).
Proof.
  intros H. cbv zeta.
  rewrite (add_to_conversation_live w sid s message H).
  rewrite (update_proficiency_run w sid s delta H). cbn [snd].
  split; intros Ht; split; now apply live_at_time_store.
Qed.

Lemma mutation_restarts_expiry_witness :
  live (at_time 4600 fresh_world) "s1" fresh_session
  /\ absent (at_time 4601 fresh_world) "s1"
  /\ live (at_time 8200
             (snd (SessionService.update_proficiency "s1" 5
                     (at_time 4600 fresh_world))))
          "s1" (rescored 5 fresh_session)
  /\ absent (at_time 8201
               (snd (SessionService.update_proficiency "s1" 5
                       (at_time 4600 fresh_world)))) "s1".
Proof.
  assert (H : live (at_time 4600 fresh_world) "s1" fresh_session)
    by (vm_compute; reflexivity).
  split; [exact H|]. split; [vm_compute; reflexivity|].
  pose proof (mutation_restarts_expiry (at_time 4600 fresh_world) "s1"
                fresh_session (StudentTurn "" 0 "" 0) 5) as R.
  split.
  - apply (R 8200 H). cbn. lia.
  - apply (R 8201 H). cbn. lia.
Defined.

(** ** Orchestrator: what a submission reads, writes and returns *)

Section Submission.

Variable embed_query : string -> option (list Q).
Variable model : chat_messages -> option string.
Variable prompts : TeachingPrompts.

(** The run of a submission on a live, active session, step by step: the
    session [s0] and the world [w0] after the proficiency update (if the
    estimator asked for one), the search on [w0], and the two appends, or
    none when no response was produced. *)
Lemma process_trace (w : world) (sid message : string) (s : session) :
  live w sid s -> session_status s = "active" ->
  let delta := score_change (_analyze_proficiency message s) in
  let s0 := if delta =? 0 then s else rescored delta s in
  let w0 := if delta =? 0 then w else store sid s0 w in
  exists results sch,
    search_by_difficulty embed_query message (difficulty_level s0)
      (subject s0) w0 = (Val results, with_schedule sch w0)
    /\ live (with_schedule sch w0) sid s0
    /\ process_student_message embed_query model prompts sid message w =
       match _generate_adaptive_response model prompts message s0 results
               (with_schedule sch w0)
       with
       | (Val r, _) =>
           let student :=
             StudentTurn message (now w) (difficulty_level s0)
                         (proficiency_score s0) in
           let teacher :=
             TeacherTurn (response_content r) (now w) (response_strategy r)
                         (Z.of_nat (length results)) in
           (Val (Reply (response_content r) (difficulty_level s0)
                       (proficiency_score s0) (response_strategy r) sid
                       (interaction_count s0)),
            store sid (appended teacher (appended student s0))
                  (store sid (appended student s0) (with_schedule sch w0)))
       | (Exn _, _) =>
           (Val (Error "Failed to process message"), with_schedule sch w0)
       end.
Proof.
  intros H Hs delta s0 w0.
  assert (Hlive0 : live w0 sid s0).
  { subst s0 w0. destruct (delta =? 0); [exact H | apply live_store]. }
  assert (Hnow0 : now w0 = now w).
  { subst w0. now destruct (delta =? 0). }
  destruct (hybrid_search_frame embed_query message
              (Some [("subject", subject s0);
                     ("difficulty_level", difficulty_level s0)]) 5 w0)
    as (results & sch & Hsearch).
  exists results, sch. split; [exact Hsearch|].
  set (w1 := with_schedule sch w0).
  assert (Hlive1 : live w1 sid s0) by now apply live_with_schedule.
  split; [exact Hlive1|].
  unfold process_student_message, try_except.
  rewrite (bind_val _ _ _ _ _ H).
  apply String.eqb_eq in Hs. rewrite Hs. cbn [negb].
  fold delta.
  assert (Hrefresh :
    (if negb (delta =? 0) then
       SessionService.update_proficiency sid delta ;;;
       refreshed <- SessionService.get_session sid ;;
       call "NoneType is not subscriptable" refreshed
     else ret s) w = (Val s0, w0)).
  { subst s0 w0. destruct (delta =? 0); cbn [negb]; [reflexivity|].
    rewrite (bind_val _ _ _ _ _ (update_proficiency_run w sid s delta H)).
    now rewrite (bind_val _ _ _ _ _ (live_store w sid (rescored delta s))). }
  rewrite (bind_val _ _ _ _ _ Hrefresh).
  rewrite (bind_val _ _ _ _ _ Hsearch). fold w1.
  pose proof (generate_world model prompts message s0 results w1) as Hw.
  destruct (_generate_adaptive_response model prompts message s0 results w1)
    as [[r|e] w2] eqn:Hgen; cbn in Hw; subst w2.
  - rewrite (bind_val _ _ _ _ _ Hgen).
    assert (Ht1 : datetime_now w1 = (Val (now w), w1))
      by (unfold datetime_now; cbn; now rewrite Hnow0).
    rewrite (bind_val _ _ _ _ _ Ht1).
    rewrite (bind_val _ _ _ _ _ (add_to_conversation_live w1 sid s0 _ Hlive1)).
    set (w2 := store sid _ w1).
    assert (Ht2 : datetime_now w2 = (Val (now w), w2))
      by (unfold datetime_now; cbn; now rewrite Hnow0).
    rewrite (bind_val _ _ _ _ _ Ht2).
    rewrite (bind_val _ _ _ _ _
               (add_to_conversation_live w2 sid _ _ (live_store w1 sid _))).
    reflexivity.
  - now rewrite (bind_exn _ _ _ _ _ Hgen).
Qed.

End Submission.

Lemma rescored_fields (delta : Z) (s : session) :
  proficiency_score (rescored delta s)
  = Z.max 0 (Z.min 100 (proficiency_score s + delta))
  /\ level_of (proficiency_score (rescored delta s))
              (difficulty_level (rescored delta s))
  /\ interaction_count (rescored delta s) = interaction_count s
  /\ conversation_history (rescored delta s) = conversation_history s
  /\ session_id (rescored delta s) = session_id s
  /\ subject (rescored delta s) = subject s.
Proof.
  unfold rescored.
  set (n := Z.max 0 (Z.min 100 (proficiency_score s + delta))).
  destruct (Z.leb_spec 75 n); [|destruct (Z.leb_spec 40 n)]; cbn;
    repeat split.
  - now apply level_advanced.
  - apply level_intermediate. lia.
  - now apply level_beginner.
Qed.

Lemma evolves_well_formed (s s' : session) :
  evolves s s' -> well_formed s -> well_formed s'.
Proof.
  induction 1; intros Hw; auto using well_formed_rescored, well_formed_appended.
Qed.

Lemma evolves_session_id (s s' : session) :
  evolves s s' -> session_id s' = session_id s.
Proof.
  induction 1; [reflexivity| |exact IHevolves].
  destruct (rescored_fields delta s') as (_ & _ & _ & _ & -> & _).
  exact IHevolves.
Qed.

(** Where a submission leaves the world: the durable tables, the documents
    and the clock as they were, the store changed at most under the key of
    the session, and there by proficiency updates and appended turns. *)
Lemma process_world
      (embed_query : string -> option (list Q))
      (model : chat_messages -> option string) (prompts : TeachingPrompts)
      (w : world) (sid message : string) :
  let w' := snd (process_student_message embed_query model prompts
                   sid message w) in
  documents w' = documents w
  /\ tbl_conversation_history w' = tbl_conversation_history w
  /\ tbl_session_summaries w' = tbl_session_summaries w
  /\ tbl_user_experiences w' = tbl_user_experiences w
  /\ now w' = now w
  /\ (forall k, k <> SessionService.key sid -> redis w' !! k = redis w !! k)
  /\ (forall d' s',
         redis w' !! SessionService.key sid = Some (d', s') ->
         exists d s, redis w !! SessionService.key sid = Some (d, s)
                     /\ evolves s s').
Proof.
  cbv zeta.
  destruct (live_or_absent w sid) as [[s H]|H].
  2:{ rewrite (process_absent _ _ _ _ _ _ H). cbn.
      do 6 (split; [reflexivity|]). eauto using evolves_refl. }
  destruct (String.eqb_spec (session_status s) "active") as [Hs|Hs].
  2:{ rewrite (process_inactive _ _ _ _ _ _ s H Hs). cbn.
      do 6 (split; [reflexivity|]). eauto using evolves_refl. }
  destruct (process_trace embed_query model prompts w sid message s H Hs)
    as (results & sch & _ & _ & Hrun).
  rewrite Hrun. clear Hrun.
  apply live_lookup in H as (d & Hd & _).
  set (delta := score_change (_analyze_proficiency message s)).
  destruct (_generate_adaptive_response _ _ _ _ _ _) as [[r|e] w2];
    destruct (delta =? 0); cbn;
    (do 5 (split; [reflexivity|]); split;
     [ intros k Hk; now rewrite ?lookup_insert_ne by congruence
     | intros d' s'; rewrite ?lookup_insert_eq; intros Hl;
       exists d, s; split; [exact Hd|] ]).
  - injection Hl as _ <-. do 2 apply evolves_append. apply evolves_refl.
  - injection Hl as _ <-. do 2 apply evolves_append.
    apply evolves_score, evolves_refl.
  - rewrite Hd in Hl. injection Hl as _ <-. apply evolves_refl.
  - injection Hl as _ <-. apply evolves_score, evolves_refl.
Qed.



(** X5. When generation fails on a live, active session, the submission
    returns the failed-to-process error, yet the proficiency update made for
    this message stays in the store: the session is left with the rescored
    level and score (and with its log and counter untouched). *)
Theorem failed_generation_keeps_score_update
        (embed_query : string -> option (list Q))
        (model : chat_messages -> option string) (prompts : TeachingPrompts)
        (w : world) (sid message : string) (s : session) :
  live w sid s -> session_status s = "active" ->
  (forall m, model m = None) ->
  let delta := score_change (_analyze_proficiency message s) in
  exists w',
    process_student_message embed_query model prompts sid message w
    = (Val (Error "Failed to process message"), w')
    /\ live w' sid (if delta =? 0 then s else rescored delta s).
Proof.
  intros H Hs Hm delta.
  destruct (process_trace embed_query model prompts w sid message s H Hs)
    as (results & sch & _ & Hlive & Hrun).
  fold delta in Hrun, Hlive.
  destruct (generate_model_fails model prompts message
              (if delta =? 0 then s else rescored delta s) results
              (with_schedule sch
                 (if delta =? 0 then w
                  else store sid (if delta =? 0 then s else rescored delta s)
                             w)) Hm)
    as [e Hgen].
  rewrite Hgen in Hrun. eexists. split; [exact Hrun|exact Hlive].
Qed.

Lemma failed_generation_keeps_score_update_witness :
  live fresh_world "s1" fresh_session
  /\ proficiency_score fresh_session = 50
  /\ exists w',
      process_student_message fake_embed failing_model fake_prompts
        "s1" "hello there" fresh_world
      = (Val (Error "Failed to process message"), w')
      /\ live w' "s1" (rescored (-1) fresh_session)
      /\ proficiency_score (rescored (-1) fresh_session) = 49.
Proof.
  assert (H : live fresh_world "s1" fresh_session) by (vm_compute; reflexivity).
  assert (Hm : forall m, failing_model m = None) by reflexivity.
  split; [exact H|]. split; [reflexivity|].
  destruct (failed_generation_keeps_score_update fake_embed failing_model
              fake_prompts fresh_world "s1" "hello there" fresh_session
              H eq_refl Hm) as (w' & Hrun & Hl).
  exists w'. split; [exact Hrun|]. split; [exact Hl|reflexivity].
Defined.

(** X6. A submission, whatever it returns, never writes the durable tables
    or the content store and never moves the clock, and it changes the
    session store under no key other than that of its own session. *)
Theorem submission_touches_only_its_session
        (embed_query : string -> option (list Q))
        (model : chat_messages -> option string) (prompts : TeachingPrompts)
        (w : world) (sid message : string) :
  let w' := snd (process_student_message embed_query model prompts
                   sid message w) in
  documents w' = documents w
  /\ tbl_conversation_history w' = tbl_conversation_history w
  /\ tbl_session_summaries w' = tbl_session_summaries w
  /\ tbl_user_experiences w' = tbl_user_experiences w
  /\ now w' = now w
  /\ (forall k, k <> SessionService.key sid -> redis w' !! k = redis w !! k).
Proof.
  destruct (process_world embed_query model prompts w sid message)
    as (H1 & H2 & H3 & H4 & H5 & H6 & _).
  cbv zeta. auto 10.
Qed.

(** ** Proficiency estimator: range of the score change *)

Lemma analyze_range (message : string) (s : session) :
  -2 <= score_change (_analyze_proficiency message s) <= 5.
Proof.
  unfold _analyze_proficiency. cbn [score_change].
  repeat match goal with
         | |- context [if ?b then _ else _] => destruct b
         end; lia.
Qed.

(** X7. The estimator only ever returns -2, -1, 0, 3 or 5. A beginner
    session never loses points (0, 3 or 5), an advanced session never gains
    any (-2, -1 or 0), an intermediate session gets -1, 0 or 3, and a session
    whose level is none of the three always gets 0. *)
Theorem score_change_by_level (message : string) (s : session) :
  let d := score_change (_analyze_proficiency message s) in
  (difficulty_level s = "beginner" -> d = 0 \/ d = 3 \/ d = 5)
  /\ (difficulty_level s = "intermediate" -> d = -1 \/ d = 0 \/ d = 3)
  /\ (difficulty_level s = "advanced" -> d = -2 \/ d = -1 \/ d = 0)
  /\ (difficulty_level s <> "beginner" ->
      difficulty_level s <> "intermediate" ->
      difficulty_level s <> "advanced" -> d = 0)
  /\ (d = -2 \/ d = -1 \/ d = 0 \/ d = 3 \/ d = 5).
Proof.
  cbv zeta. unfold _analyze_proficiency. cbn [score_change].
  set (c1 := Py.Qgtb _ 0.8 && Py.Qgtb _ 5).
  set (c2 := Py.Qgtb _ 10). set (c3 := Py.Qltb _ 3). set (c4 := _ <? 3).
  cbn [existsb].
  repeat split.
  - intros ->. cbn. destruct c1, c2, c3, c4; cbn; auto.
  - intros ->. cbn. destruct c1, c2, c3, c4; cbn; auto.
  - intros ->. cbn. destruct c1, c2, c3, c4; cbn; auto.
  - intros Hb Hi Ha. apply String.eqb_neq in Hb, Hi, Ha.
    rewrite Hb, Hi, Ha. destruct c1, c2, c3, c4; reflexivity.
  - destruct (String.eqb (difficulty_level s) "beginner"),
      (String.eqb (difficulty_level s) "intermediate"),
      (String.eqb (difficulty_level s) "advanced"), c1, c2, c3, c4;
      cbn; auto 6.
Qed.

Lemma score_change_by_level_witness :
  difficulty_level (sample_session "advanced" 80) = "advanced"
  /\ (score_change (_analyze_proficiency "Yes." (sample_session "advanced" 80))
      = -2
      \/ score_change (_analyze_proficiency "Yes." (sample_session "advanced" 80))
         = -1
      \/ score_change (_analyze_proficiency "Yes." (sample_session "advanced" 80))
         = 0).
Proof.
  assert (H : difficulty_level (sample_session "advanced" 80) = "advanced")
    by reflexivity.
  split; [exact H|].
  exact (proj1 (proj2 (proj2
           (score_change_by_level "Yes." (sample_session "advanced" 80)))) H).
Defined.

(** ** Invariants of the session store *)

Lemma store_ok_same_redis (w w' : world) :
  redis w' = redis w -> store_ok w -> store_ok w'.
Proof. unfold store_ok. intros ->. auto. Qed.

Lemma store_ok_store (w : world) (sid : string) (s : session) :
  store_ok w -> well_formed s -> session_id s = sid ->
  store_ok (store sid s w).
Proof.
  intros Hok Hwf Hid k d s'. unfold store. cbn. rewrite lookup_insert.
  case_decide as Hk.
  - intros [= _ <-]. split; [exact Hwf|]. now rewrite Hid.
  - apply Hok.
Qed.

Lemma store_ok_live (w : world) (sid : string) (s : session) :
  store_ok w -> live w sid s -> well_formed s /\ session_id s = sid.
Proof.
  intros Hok H. apply live_lookup in H as (d & Hd & _).
  destruct (Hok _ _ _ Hd) as [Hwf Hk]. split; [exact Hwf|].
  symmetry. now apply key_injective.
Qed.

Lemma add_chunks_redis
      (embed_query : string -> option (list Q)) (chunks : list lc_document)
      (w : world) :
  redis (snd (add_chunks embed_query chunks w)) = redis w
  /\ now (snd (add_chunks embed_query chunks w)) = now w.
Proof.
  revert w. induction chunks as [|c rest IH]; intros w; [now split|].
  cbn [add_chunks]. unfold bind at 1, call.
  destruct (embed_query (page_content c)) as [e|]; [|now split].
  cbn [ret]. unfold bind at 1, Supabase.insert, bind, Supabase.next_outcome.
  destruct w as [r d c1 sm ex sch t].
  destruct sch as [|[| |] sch]; cbn [schedule fst snd]; cbn -[add_chunks];
    try (now split);
    match goal with
    | |- context [add_chunks _ _ ?w0] => destruct (IH w0) as [-> ->]
    end; now split.
Qed.

Lemma add_documents_redis
      (embed_query : string -> option (list Q))
      (split_documents : list lc_document -> list lc_document)
      (docs : list lc_document) (w : world) :
  redis (snd (add_documents embed_query split_documents docs w)) = redis w.
Proof.
  unfold add_documents, try_except, bind.
  pose proof (add_chunks_redis embed_query (split_documents docs) w) as [H _].
  destruct (add_chunks embed_query (split_documents docs) w) as [[u|e] w1];
    exact H.
Qed.

Lemma api_step_store_ok (w w' : world) :
  api_step w w' -> store_ok w -> store_ok w'.
Proof.
  intros Hstep Hok.
  destruct Hstep
    as [uuid anon ud w | embed_query model prompts sid message w | sid ue w
       | sid x w | embed_query split_documents docs w
       | embed_query query filters limit w | t w Ht | sch w].
  - (* create *)
    destruct ud as [ud|]; [|exact Hok].
    apply store_ok_store; [exact Hok| |reflexivity].
    constructor; cbn; try reflexivity; try lia; [|now split].
    apply level_intermediate. lia.
  - (* message *)
    destruct (process_world embed_query model prompts w sid message)
      as (_ & _ & _ & _ & _ & Hother & Hkey).
    intros k d s' Hl.
    destruct (decide (k = SessionService.key sid)) as [->|Hk].
    + destruct (Hkey _ _ Hl) as (d0 & s0 & Hl0 & Hev).
      destruct (Hok _ _ _ Hl0) as [Hwf Hk0]. split.
      * exact (evolves_well_formed _ _ Hev Hwf).
      * now rewrite (evolves_session_id _ _ Hev).
    + rewrite (Hother k Hk) in Hl. exact (Hok _ _ _ Hl).
  - (* end *)
    destruct (live_or_absent w sid) as [[s H]|H].
    + destruct (end_session_live w sid s ue H)
        as (w' & -> & Hr & _). cbn [snd].
      intros k d s' Hl. rewrite Hr in Hl.
      apply lookup_delete_Some in Hl as [_ Hl]. exact (Hok _ _ _ Hl).
    + now rewrite (end_session_absent w sid ue H).
  - (* subject *)
    destruct (live_or_absent w sid) as [[s H]|H].
    + rewrite (update_session_live w sid s _ H). cbn [snd].
      destruct (store_ok_live w sid s Hok H) as [Hwf Hid].
      apply store_ok_store; [exact Hok| |exact Hid].
      now apply well_formed_set_subject.
    + now rewrite (update_session_absent w sid _ H).
  - (* ingest *)
    eapply store_ok_same_redis; [apply add_documents_redis|exact Hok].
  - (* search *)
    destruct (hybrid_search_frame embed_query query filters limit w)
      as (results & sch & ->). exact Hok.
  - exact Hok.
  - exact Hok.
Qed.

Lemma reachable_store_ok (w : world) : reachable w -> store_ok w.
Proof.
  induction 1 as [w Hempty|w w' _ IH Hstep].
  - intros k d s. rewrite Hempty, lookup_empty. discriminate.
  - exact (api_step_store_ok w w' Hstep IH).
Qed.

(** X8. In every world reachable from an empty session store by the
    service methods that the handlers call, the passing of time and any
    behaviour of the durable store, each live session has a score within [0,100], the
    level that the 75/40 thresholds give to that score, an interaction
    counter equal to the number of turns in its log, the identifier it is
    stored under, initial proficiency 50 and status active. *)
Theorem reachable_sessions_are_consistent
        (w : world) (sid : string) (s : session) :
  reachable w -> live w sid s ->
  0 <= proficiency_score s <= 100
  /\ level_of (proficiency_score s) (difficulty_level s)
  /\ interaction_count s = Z.of_nat (length (conversation_history s))
  /\ session_id s = sid
  /\ initial_proficiency s = 50
  /\ session_status s = "active".
Proof.
  intros Hr H.
  destruct (store_ok_live w sid s (reachable_store_ok w Hr) H)
    as [[Hs Hl Hc Ha Hi Ho] Hid].
  auto 10.
Qed.

Lemma reachable_sessions_are_consistent_witness :
  let w := snd (process_student_message fake_embed fake_model fake_prompts
                  "s1" "hello there" fresh_world) in
  reachable w
  /\ exists s, live w "s1" s
               /\ 0 <= proficiency_score s <= 100
               /\ interaction_count s
                  = Z.of_nat (length (conversation_history s)).
Proof.
  cbv zeta.
  assert (Hr : reachable
                 (snd (process_student_message fake_embed fake_model
                         fake_prompts "s1" "hello there" fresh_world))).
  { eapply reach_step; [|apply step_message].
    eapply reach_step; [|exact (step_create "s1" "a1" (Some {["user_id" := "u1"]})
                                  empty_world)].
    now apply reach_start. }
  split; [exact Hr|].
  eexists. split; [vm_compute; reflexivity|].
  match goal with
  | |- context [proficiency_score ?s] =>
      destruct (reachable_sessions_are_consistent _ "s1" s Hr) as (A & _ & C & _)
  end; [vm_compute; reflexivity|].
  split; [exact A|exact C].
Defined.

(** X9. Because a stored session always has status active, the
    not-active error is never produced: in a reachable world a submission
    returns a reply, the invalid-session error or the failed-to-process
    error, and nothing else. *)
Theorem inactive_error_is_unreachable
        (embed_query : string -> option (list Q))
        (model : chat_messages -> option string) (prompts : TeachingPrompts)
        (w : world) (sid message : string) :
  reachable w ->
  let result :=
    fst (process_student_message embed_query model prompts sid message w) in
  result <> Val (Error "Session is not active")
  /\ ((absent w sid /\ result = Val (Error "Invalid session"))
      \/ result = Val (Error "Failed to process message")
      \/ exists text level score strategy count,
          result = Val (Reply text level score strategy sid count)).
Proof.
  intros Hr. cbv zeta.
  destruct (live_or_absent w sid) as [[s H]|H].
  - destruct (store_ok_live w sid s (reachable_store_ok w Hr) H)
      as [[_ _ _ Ha _ _] _].
    destruct (process_trace embed_query model prompts w sid message s H Ha)
      as (results & sch & _ & _ & Hrun).
    rewrite Hrun.
    destruct (_generate_adaptive_response _ _ _ _ _ _) as [[r|e] w2];
      cbn; (split; [discriminate|]); eauto 10.
  - rewrite (process_absent _ _ _ _ _ _ H). cbn.
    split; [discriminate|]. now left.
Qed.

Lemma inactive_error_is_unreachable_witness :
  reachable fresh_world
  /\ fst (process_student_message fake_embed failing_model fake_prompts
            "s1" "hello there" fresh_world)
     <> Val (Error "Session is not active").
Proof.
  assert (Hr : reachable fresh_world).
  { eapply reach_step; [|exact (step_create "s1" "a1" (Some {["user_id" := "u1"]})
                                  empty_world)].
    now apply reach_start. }
  split; [exact Hr|].
  exact (proj1 (inactive_error_is_unreachable fake_embed failing_model
                  fake_prompts fresh_world "s1" "hello there" Hr)).
Defined.

(** X10. One submission moves the stored score of a live, active session
    with a score in [0,100] by at most 5 upwards and 2 downwards, and keeps
    it in [0,100], whether the submission ends in a reply or in an error. *)
Theorem submission_moves_score_by_little
        (embed_query : string -> option (list Q))
        (model : chat_messages -> option string) (prompts : TeachingPrompts)
        (w : world) (sid message : string) (s : session) :
  live w sid s -> session_status s = "active" ->
  0 <= proficiency_score s <= 100 ->
  exists s',
    live (snd (process_student_message embed_query model prompts
                 sid message w)) sid s'
    /\ -2 <= proficiency_score s' - proficiency_score s <= 5
    /\ 0 <= proficiency_score s' <= 100.
Proof.
  intros H Hs Hb.
  destruct (process_trace embed_query model prompts w sid message s H Hs)
    as (results & sch & _ & Hlive & Hrun).
  pose proof (analyze_range message s) as Hd.
  set (delta := score_change (_analyze_proficiency message s)) in *.
  set (s0 := if delta =? 0 then s else rescored delta s) in *.
  assert (Hs0 : -2 <= proficiency_score s0 - proficiency_score s <= 5
                /\ 0 <= proficiency_score s0 <= 100).
  { subst s0. destruct (delta =? 0); [lia|].
    destruct (rescored_fields delta s) as (-> & _). lia. }
  rewrite Hrun.
  destruct (_generate_adaptive_response _ _ _ _ _ _) as [[r|e] w2]; cbn [snd].
  - eexists. split; [apply live_store|]. exact Hs0.
  - exists s0. split; [exact Hlive|exact Hs0].
Qed.

Lemma submission_moves_score_by_little_witness :
  live fresh_world "s1" fresh_session
  /\ 0 <= proficiency_score fresh_session <= 100
  /\ exists s',
      live (snd (process_student_message fake_embed fake_model fake_prompts
                   "s1" "hello there" fresh_world)) "s1" s'
      /\ -2 <= proficiency_score s' - proficiency_score fresh_session <= 5
      /\ 0 <= proficiency_score s' <= 100.
Proof.
  assert (H : live fresh_world "s1" fresh_session) by (vm_compute; reflexivity).
  assert (Hb : 0 <= proficiency_score fresh_session <= 100) by (cbn; lia).
  split; [exact H|]. split; [exact Hb|].
  exact (submission_moves_score_by_little fake_embed fake_model fake_prompts
           fresh_world "s1" "hello there" fresh_session H eq_refl Hb).
Defined.

(** ** Ending a session: what reaches the durable store *)

(** X11. When the conversation-history insert and the session-summary
    insert both go through, [end_session] on a live session returns True,
    removes the live record and appends exactly one row to each of the two
    tables: the log row holds the whole conversation, its length and the
    final level and score; the summary row holds the improvement (final score
    minus initial proficiency), the interaction counter, status ended, the
    end time, and Config's default level as initial level. *)
Theorem end_session_stores_log_and_summary
        (w : world) (sid : string) (s : session)
        (ue : option (gmap string string)) :
  live w sid s ->
  outcome_at w 0 = Stored ->
  outcome_at w (if SessionService.truthy ue then 2 else 1) = Stored ->
  exists w' crow srow,
    SessionService.end_session sid ue w = (Val true, w')
    /\ absent w' sid
    /\ tbl_conversation_history w' = (tbl_conversation_history w ++ [crow])%list
    /\ tbl_session_summaries w' = (tbl_session_summaries w ++ [srow])%list
    /\ cr_session_id crow = session_id s
    /\ cr_conversation_data crow = conversation_history s
    /\ cr_message_count crow = Z.of_nat (length (conversation_history s))
    /\ cr_final_difficulty_level crow = difficulty_level s
    /\ cr_final_proficiency_score crow = proficiency_score s
    /\ cr_ended_at crow = Some (now w)
    /\ sr_session_id srow = session_id s
    /\ sr_user_id srow = user_id s
    /\ sr_proficiency_improvement srow
       = proficiency_score s - initial_proficiency s
    /\ sr_total_interactions srow = interaction_count s
    /\ sr_initial_difficulty_level srow = "intermediate"
    /\ sr_session_status srow = "ended"
    /\ sr_ended_at srow = Some (now w).
Proof.
  intros H Ho0 Ho1.
  unfold SessionService.end_session, try_except.
  rewrite (bind_val _ _ _ _ _ H).
  unfold bind, datetime_now, SessionService._store_conversation_history,
    SessionService._store_session_summary,
    SessionService._store_user_experience, try_except, Supabase.insert,
    Supabase.next_outcome, bind, datetime_now, ret, raise, Redis.delete.
  unfold outcome_at in Ho0, Ho1.
  destruct w as [r d c sm ex sch t]. cbn in Ho0, Ho1. cbn [now schedule].
  destruct (SessionService.truthy ue);
    destruct sch as [|o0 [|o1 [|o2 sch]]]; cbn in Ho0, Ho1; subst;
    try destruct o1; cbn;
    (do 3 eexists; split; [reflexivity|];
     split; [apply absent_lookup; cbn; apply lookup_delete_eq|];
     cbn; repeat split).
Qed.

Lemma end_session_stores_log_and_summary_witness :
  live fresh_world "s1" fresh_session
  /\ outcome_at fresh_world 0 = Stored
  /\ exists w' crow srow,
      SessionService.end_session "s1" None fresh_world = (Val true, w')
      /\ absent w' "s1"
      /\ tbl_conversation_history w' = [crow]
      /\ tbl_session_summaries w' = [srow]
      /\ cr_message_count crow = 0
      /\ sr_proficiency_improvement srow = 0
      /\ sr_session_status srow = "ended".
Proof.
  assert (H : live fresh_world "s1" fresh_session) by (vm_compute; reflexivity).
  assert (H0 : outcome_at fresh_world 0 = Stored) by reflexivity.
  assert (H1 : outcome_at fresh_world
                 (if SessionService.truthy None then 2 else 1) = Stored)
    by reflexivity.
  split; [exact H|]. split; [exact H0|].
  destruct (end_session_stores_log_and_summary fresh_world "s1" fresh_session
              None H H0 H1)
    as (w' & crow & srow & Hrun & Ha & Hc & Hs & _ & _ & Hn & _ & _ & _ & _
        & _ & Hi & _ & _ & He & _).
  exists w', crow, srow.
  split; [exact Hrun|]. split; [exact Ha|]. split; [exact Hc|].
  split; [exact Hs|]. split; [exact Hn|]. split; [exact Hi|exact He].
Defined.

(** X12. With feedback supplied, [end_session] makes three requests and its
    result is decided by the first and the third alone: whether the feedback
    insert is stored, returns no data or raises has no influence on the
    returned value. When that insert is stored, one row with the session's
    identifier and user and the feedback fields is appended to the
    user-experience table; otherwise the table is unchanged. *)
Theorem feedback_write_does_not_decide_end
        (w : world) (sid : string) (s : session) (m : gmap string string) :
  live w sid s -> SessionService.truthy (Some m) = true ->
  exists w',
    SessionService.end_session sid (Some m) w
    = (Val (stored (outcome_at w 0) && stored (outcome_at w 2)), w')
    /\ schedule w' = skipn 3 (schedule w)
    /\ (outcome_at w 1 = Stored ->
        exists erow,
          tbl_user_experiences w' = (tbl_user_experiences w ++ [erow])%list
          /\ er_session_id erow = sid
          /\ er_user_id erow = user_id s
          /\ er_rating erow = m !! "rating"
          /\ er_feedback_text erow = m !! "feedback"
          /\ er_created_at erow = now w)
    /\ (outcome_at w 1 <> Stored ->
        tbl_user_experiences w' = tbl_user_experiences w).
Proof.
  intros H Ht.
  unfold SessionService.end_session, try_except.
  rewrite (bind_val _ _ _ _ _ H). rewrite Ht.
  unfold bind, datetime_now, SessionService._store_conversation_history,
    SessionService._store_session_summary,
    SessionService._store_user_experience, try_except, Supabase.insert,
    Supabase.next_outcome, bind, datetime_now, ret, raise, Redis.delete.
  unfold outcome_at.
  destruct w as [r d c sm ex sch t]. cbn [now schedule].
  destruct sch as [|[| |] [|[| |] [|[| |] sch]]]; cbn;
    (eexists; split; [reflexivity|]; split; [reflexivity|]; cbn; split;
     [ intros Ho; try discriminate Ho; eexists; repeat split
     | intros Ho; try reflexivity; now destruct Ho ]).
Qed.

Lemma feedback_write_does_not_decide_end_witness :
  let w := with_schedule [Stored; Unreachable; Stored] fresh_world in
  live w "s1" fresh_session
  /\ SessionService.truthy (Some {["rating" := "5"]}) = true
  /\ exists w',
      SessionService.end_session "s1" (Some {["rating" := "5"]}) w
      = (Val true, w')
      /\ tbl_user_experiences w' = [].
Proof.
  cbv zeta.
  assert (H : live (with_schedule [Stored; Unreachable; Stored] fresh_world)
                   "s1" fresh_session) by (vm_compute; reflexivity).
  assert (Ht : SessionService.truthy (Some {["rating" := "5"]}) = true)
    by (vm_compute; reflexivity).
  split; [exact H|]. split; [exact Ht|].
  destruct (feedback_write_does_not_decide_end _ "s1" fresh_session
              {["rating" := "5"]} H Ht) as (w' & Hrun & _ & _ & Hno).
  exists w'. split; [exact Hrun|]. apply Hno. cbn. discriminate.
Defined.

(** ** Session history of a user *)

Lemma insert_newest_perm (x : summary_record) (l : list summary_record) :
  Permutation (insert_newest x l) (x :: l).
Proof.
  induction l as [|y l IH]; cbn; [reflexivity|].
  destruct (sr_created_at x <? sr_created_at y); [|reflexivity].
  rewrite IH. apply perm_swap.
Qed.

Lemma newest_first_perm (l : list summary_record) :
  Permutation (newest_first l) l.
Proof.
  induction l as [|x l IH]; cbn; [reflexivity|].
  rewrite insert_newest_perm. now constructor.
Qed.

Lemma insert_newest_sorted (x : summary_record) (l : list summary_record) :
  Sorted (fun a b => sr_created_at b <= sr_created_at a) l ->
  Sorted (fun a b => sr_created_at b <= sr_created_at a) (insert_newest x l).
Proof.
  induction l as [|y l IH]; intros Hs; cbn; [repeat constructor|].
  destruct (Z.ltb_spec (sr_created_at x) (sr_created_at y)) as [Hlt|Hge].
  - inversion Hs as [|? ? Hl Hhd]; subst. constructor; [now apply IH|].
    destruct l as [|z l]; cbn.
    + constructor. lia.
    + destruct (sr_created_at x <? sr_created_at z).
      * inversion Hhd; subst. now constructor.
      * constructor. lia.
  - constructor; [assumption|]. constructor. lia.
Qed.

Lemma newest_first_sorted (l : list summary_record) :
  Sorted (fun a b => sr_created_at b <= sr_created_at a) (newest_first l).
Proof.
  induction l as [|x l IH]; cbn; [constructor|].
  now apply insert_newest_sorted.
Qed.

Lemma sorted_firstn {A} (R : A -> A -> Prop) (n : nat) (l : list A) :
  Sorted R l -> Sorted R (firstn n l).
Proof.
  revert l. induction n as [|n IH]; intros l Hs; [constructor|].
  destruct l as [|x l]; [constructor|].
  inversion Hs as [|? ? Hl Hhd]; subst. cbn. constructor; [now apply IH|].
  destruct l as [|y l]; [destruct n; constructor|].
  destruct n; [constructor|]. cbn. constructor. now inversion Hhd.
Qed.

Lemma in_firstn_in {A} (x : A) (n : nat) (l : list A) :
  In x (firstn n l) -> In x l.
Proof.
  intros H. rewrite <- (firstn_skipn n l). apply in_or_app. now left.
Qed.

(** What the history query returns, case by case. *)
Lemma user_history_run (user : string) (limit : nat) (w : world) :
  let mine :=
    List.filter (fun row => String.eqb (sr_user_id row) user)
                (tbl_session_summaries w) in
  exists w',
    SessionService.get_user_session_history user limit w
    = (Val (match outcome_at w 0 with
            | Stored => firstn limit (newest_first mine)
            | _ => []
            end), w')
    /\ redis w' = redis w
    /\ tbl_session_summaries w' = tbl_session_summaries w.
Proof.
  cbv zeta.
  unfold SessionService.get_user_session_history, try_except, bind,
    Supabase.select_summaries, Supabase.next_outcome, bind, ret, raise,
    outcome_at.
  destruct w as [r d c sm ex sch t]. cbn [schedule].
  destruct sch as [|[| |] sch]; cbn;
    try (destruct (firstn limit _)); eauto.
Qed.

(** X13. [get_user_session_history] never raises. It returns at most [limit]
    summary rows, each one a stored row of that user, newest first; it
    returns the empty list when the request fails; and when the request goes
    through and the user has no more than [limit] rows, it returns all of
    them. *)
Theorem user_history_is_filtered_sorted_and_bounded
        (user : string) (limit : nat) (w : world) :
  exists rows w',
    SessionService.get_user_session_history user limit w = (Val rows, w')
    /\ (length rows <= limit)%nat
    /\ (forall row, In row rows ->
                    sr_user_id row = user
                    /\ In row (tbl_session_summaries w))
    /\ Sorted (fun a b => sr_created_at b <= sr_created_at a) rows
    /\ (outcome_at w 0 = Unreachable -> rows = [])
    /\ (outcome_at w 0 = Stored ->
        forall row, In row (tbl_session_summaries w) ->
                    sr_user_id row = user ->
                    (length (List.filter
                               (fun r => String.eqb (sr_user_id r) user)
                               (tbl_session_summaries w)) <= limit)%nat ->
                    In row rows).
Proof.
  destruct (user_history_run user limit w) as (w' & Hrun & _).
  set (mine := List.filter _ _) in Hrun.
  eexists _, w'. split; [exact Hrun|].
  assert (Hin : forall row, In row (firstn limit (newest_first mine)) ->
                            sr_user_id row = user
                            /\ In row (tbl_session_summaries w)).
  { intros row Hrow. apply in_firstn_in in Hrow.
    apply (Permutation_in _ (newest_first_perm mine)) in Hrow.
    apply List.filter_In in Hrow as [Hrow Hu].
    apply String.eqb_eq in Hu. now split. }
  destruct (outcome_at w 0) eqn:Ho.
  - split; [apply List.firstn_le_length|]. split; [exact Hin|].
    split; [apply sorted_firstn, newest_first_sorted|].
    split; [discriminate|].
    intros _ row Hrow Hu Hlen.
    rewrite List.firstn_all2.
    + apply (Permutation_in _ (Permutation_sym (newest_first_perm mine))).
      apply List.filter_In. split; [exact Hrow|]. now apply String.eqb_eq.
    + now rewrite (Permutation_length (newest_first_perm mine)).
  - cbn. split; [lia|]. split; [intros row []|]. split; [constructor|].
    split; [reflexivity|discriminate].
  - cbn. split; [lia|]. split; [intros row []|]. split; [constructor|].
    split; [reflexivity|discriminate].
Qed.

Lemma user_history_is_filtered_sorted_and_bounded_witness :
  let w := snd (SessionService.end_session "s1" None fresh_world) in
  outcome_at w 0 = Stored
  /\ outcome_at outage_world 0 = Unreachable
  /\ (exists rows w',
         SessionService.get_user_session_history "u1" 10 w = (Val rows, w')
         /\ length rows = 1%nat)
  /\ exists w',
      SessionService.get_user_session_history "u1" 10 outage_world
      = (Val [], w').
Proof.
  cbv zeta.
  assert (Ho : outcome_at (snd (SessionService.end_session "s1" None
                                  fresh_world)) 0 = Stored) by reflexivity.
  assert (Hu : outcome_at outage_world 0 = Unreachable) by reflexivity.
  split; [exact Ho|]. split; [exact Hu|]. split.
  - destruct (user_history_is_filtered_sorted_and_bounded "u1" 10
                (snd (SessionService.end_session "s1" None fresh_world)))
      as (rows & w' & Hrun & _).
    exists rows, w'. split; [exact Hrun|].
    vm_compute in Hrun. now injection Hrun as <- _.
  - destruct (user_history_is_filtered_sorted_and_bounded "u1" 10
                outage_world) as (rows & w' & Hrun & _ & _ & _ & He & _).
    exists w'. now rewrite <- (He Hu).
Defined.

Lemma end_session_summary_row
      (w : world) (sid : string) (s : session)
      (ue : option (gmap string string)) :
  live w sid s ->
  outcome_at w 0 = Stored ->
  outcome_at w (if SessionService.truthy ue then 2 else 1) = Stored ->
  exists w' srow,
    SessionService.end_session sid ue w = (Val true, w')
    /\ tbl_session_summaries w' = (tbl_session_summaries w ++ [srow])%list
    /\ schedule w'
       = skipn (if SessionService.truthy ue then 3 else 2) (schedule w)
    /\ sr_session_id srow = session_id s
    /\ sr_user_id srow = user_id s
    /\ sr_total_interactions srow = interaction_count s
    /\ sr_proficiency_improvement srow
       = proficiency_score s - initial_proficiency s.
Proof.
  intros H Ho0 Ho1.
  unfold SessionService.end_session, try_except.
  rewrite (bind_val _ _ _ _ _ H).
  unfold bind, datetime_now, SessionService._store_conversation_history,
    SessionService._store_session_summary,
    SessionService._store_user_experience, try_except, Supabase.insert,
    Supabase.next_outcome, bind, datetime_now, ret, raise, Redis.delete.
  unfold outcome_at in Ho0, Ho1.
  destruct w as [r d c sm ex sch t]. cbn in Ho0, Ho1. cbn [now schedule].
  destruct (SessionService.truthy ue);
    destruct sch as [|o0 [|o1 [|o2 sch]]]; cbn in Ho0, Ho1; subst;
    try destruct o1; cbn;
    (do 2 eexists; split; [reflexivity|]; cbn; repeat split).
Qed.

(** X14. Round trip through the durable store: after [end_session] has
    stored a session, a history query for the session's user that goes
    through, with a limit no smaller than the number of that user's
    summaries, returns a row for this session carrying its interaction
    counter and its proficiency improvement. *)
Theorem ended_session_appears_in_history
        (w : world) (sid : string) (s : session)
        (ue : option (gmap string string)) (limit : nat) :
  live w sid s ->
  outcome_at w 0 = Stored ->
  outcome_at w (if SessionService.truthy ue then 2 else 1) = Stored ->
  outcome_at w (if SessionService.truthy ue then 3 else 2) = Stored ->
  let w' := snd (SessionService.end_session sid ue w) in
  (length (List.filter (fun r => String.eqb (sr_user_id r) (user_id s))
                       (tbl_session_summaries w')) <= limit)%nat ->
  exists rows w'' row,
    SessionService.get_user_session_history (user_id s) limit w'
    = (Val rows, w'')
    /\ In row rows
    /\ sr_session_id row = session_id s
    /\ sr_total_interactions row = interaction_count s
    /\ sr_proficiency_improvement row
       = proficiency_score s - initial_proficiency s.
Proof.
  intros H Ho0 Ho1 Ho2.
  destruct (end_session_summary_row w sid s ue H Ho0 Ho1)
    as (w' & srow & Hrun & Htbl & Hsch & Hid & Hu & Hc & Hi).
  rewrite Hrun. cbn [snd]. intros Hlen.
  destruct (user_history_run (user_id s) limit w') as (w'' & Hq & _).
  assert (Ho : outcome_at w' 0 = Stored).
  { unfold outcome_at in *. rewrite Hsch.
    destruct (SessionService.truthy ue);
      destruct (schedule w) as [|? [|? [|? [|? ?]]]]; cbn in *; congruence. }
  rewrite Ho in Hq. cbv zeta in Hq.
  eexists _, w'', srow. split; [exact Hq|].
  split; [|now repeat split].
  rewrite List.firstn_all2.
  - apply (Permutation_in _ (Permutation_sym (newest_first_perm _))).
    apply List.filter_In. split.
    + rewrite Htbl. apply in_or_app. right. now left.
    + apply String.eqb_eq. exact Hu.
  - now rewrite (Permutation_length (newest_first_perm _)).
Qed.

Lemma ended_session_appears_in_history_witness :
  live fresh_world "s1" fresh_session
  /\ outcome_at fresh_world 0 = Stored
  /\ exists rows w'' row,
      SessionService.get_user_session_history "u1" 10
        (snd (SessionService.end_session "s1" None fresh_world))
      = (Val rows, w'')
      /\ In row rows
      /\ sr_session_id row = "s1"
      /\ sr_total_interactions row = 0.
Proof.
  assert (H : live fresh_world "s1" fresh_session) by (vm_compute; reflexivity).
  assert (H0 : outcome_at fresh_world 0 = Stored) by reflexivity.
  split; [exact H|]. split; [exact H0|].
  destruct (ended_session_appears_in_history fresh_world "s1" fresh_session
              None 10 H H0 eq_refl eq_refl)
    as (rows & w'' & row & Hrun & Hin & Hid & Hc & _).
  - vm_compute. lia.
  - exists rows, w'', row. auto.
Defined.

(** ** Retrieval: filters, limit and ingestion *)

Lemma level_filter_spec (subject level : string) (doc : document) :
  apply_filters [("subject", subject); ("difficulty_level", level)] doc = true
  <-> doc_subject doc = subject /\ doc_difficulty_level doc = level.
Proof.
  cbn. rewrite andb_true_r, andb_true_iff, !String.eqb_eq. reflexivity.
Qed.

Lemma hybrid_search_hits
      (embed_query : string -> option (list Q)) (query : string)
      (metadata_filters : option (list (string * string))) (limit : nat)
      (w : world) :
  exists docs w',
    hybrid_search embed_query query metadata_filters limit w
    = (Val (map snippet docs), w')
    /\ (length docs <= limit)%nat
    /\ (forall doc, In doc docs ->
                    In doc (documents w)
                    /\ search_predicate metadata_filters doc = true)
    /\ (is_Some (embed_query query) -> outcome_at w 0 = Stored ->
        docs = firstn limit
                 (List.filter (search_predicate metadata_filters)
                    (documents w))).
Proof.
  rewrite hybrid_search_run. unfold outcome_at.
  set (hits := firstn limit _).
  assert (Hhits : (length hits <= limit)%nat
                  /\ forall doc, In doc hits ->
                                 In doc (documents w)
                                 /\ search_predicate metadata_filters doc = true).
  { split; [apply List.firstn_le_length|].
    intros doc Hd. apply in_firstn_in in Hd.
    now apply List.filter_In in Hd. }
  destruct Hhits as [Hlen Hin].
  destruct (embed_query query) as [e|].
  - destruct (schedule w) as [|[| |] rest]; cbn.
    + exists hits, w. auto.
    + exists hits, (with_schedule rest w). auto.
    + exists [], (with_schedule rest w). cbn.
      repeat split; try lia; try easy.
    + exists [], (with_schedule rest w). cbn.
      repeat split; try lia; try easy.
  - exists [], w. cbn. repeat split; try lia; try easy.
    intros [x Hx]. discriminate.
Qed.

(** X15. The level-aware search returns at most five snippets. Each one is
    the content and metadata of a stored document whose subject and
    difficulty level are exactly the ones asked for, with score 0.8; and
    when the embedding call and the request go through, the snippets are the
    first five such documents in insertion order. *)
Theorem search_by_difficulty_matches_exactly
        (embed_query : string -> option (list Q))
        (query level subject : string) (w : world) :
  exists results w',
    search_by_difficulty embed_query query level subject w = (Val results, w')
    /\ (length results <= 5)%nat
    /\ (forall r, In r results ->
                  exists doc,
                    In doc (documents w)
                    /\ content r = doc_content doc
                    /\ metadata r = doc_metadata doc
                    /\ doc_subject doc = subject
                    /\ doc_difficulty_level doc = level
                    /\ score r = 0.8%Q)
    /\ (is_Some (embed_query query) -> outcome_at w 0 = Stored ->
        map content results
        = map doc_content
            (firstn 5
               (List.filter
                  (fun doc => String.eqb (doc_subject doc) subject
                              && String.eqb (doc_difficulty_level doc) level)
                  (documents w)))).
Proof.
  unfold search_by_difficulty.
  destruct (hybrid_search_hits embed_query query
              (Some [("subject", subject); ("difficulty_level", level)]) 5 w)
    as (docs & w' & Hrun & Hlen & Hin & Hall).
  exists (map snippet docs), w'. split; [exact Hrun|].
  split; [now rewrite length_map|]. split.
  - intros r Hr. apply in_map_iff in Hr as (doc & <- & Hd).
    destruct (Hin doc Hd) as [Hstore Hp].
    apply level_filter_spec in Hp as [Hs Hl].
    exists doc. now repeat split.
  - intros He Ho. rewrite (Hall He Ho), map_map. cbn.
    f_equal. f_equal. apply List.filter_ext. intros doc.
    now rewrite andb_true_r.
Qed.

Lemma search_by_difficulty_matches_exactly_witness :
  is_Some (axis_embed "past tense")
  /\ outcome_at library_world 0 = Stored
  /\ exists results w',
      search_by_difficulty axis_embed "past tense" "intermediate" "english"
        library_world = (Val results, w')
      /\ map content results
         = ["Nouns name people, places and things.";
            "The past tense describes finished actions."].
Proof.
  assert (He : is_Some (axis_embed "past tense")) by (eexists; reflexivity).
  assert (Ho : outcome_at library_world 0 = Stored) by reflexivity.
  split; [exact He|]. split; [exact Ho|].
  destruct (search_by_difficulty_matches_exactly axis_embed "past tense"
              "intermediate" "english" library_world)
    as (results & w' & Hrun & _ & _ & Hall).
  exists results, w'. split; [exact Hrun|]. exact (Hall He Ho).
Defined.

(** X16. [hybrid_search] applies only the filter keys subject,
    difficulty_level and content_type: an entry under any other key is
    ignored, so adding one changes neither the result nor the world. *)
Theorem unknown_filter_keys_are_ignored
        (embed_query : string -> option (list Q)) (query : string)
        (key value : string) (items : list (string * string)) (limit : nat)
        (w : world) :
  key <> "subject" -> key <> "difficulty_level" -> key <> "content_type" ->
  hybrid_search embed_query query (Some ((key, value) :: items)) limit w
  = hybrid_search embed_query query (Some items) limit w.
Proof.
  intros H1 H2 H3. rewrite !hybrid_search_run.
  apply String.eqb_neq in H1, H2, H3.
  assert (Hf : List.filter (search_predicate (Some ((key, value) :: items)))
                 (documents w)
               = List.filter (search_predicate (Some items)) (documents w)).
  { apply List.filter_ext. intros doc. cbn. now rewrite H1, H2, H3. }
  now rewrite Hf.
Qed.

Lemma unknown_filter_keys_are_ignored_witness :
  hybrid_search axis_embed "past tense"
    (Some [("author", "nobody"); ("subject", "english")]) 5 library_world
  = hybrid_search axis_embed "past tense" (Some [("subject", "english")]) 5
      library_world.
Proof.
  apply (unknown_filter_keys_are_ignored axis_embed "past tense" "author"
           "nobody" [("subject", "english")] 5 library_world);
    discriminate.
Defined.

Section IngestionFacts.

Variable embed_query : string -> option (list Q).
Variable split_documents : list lc_document -> list lc_document.

Lemma add_chunks_all_stored (chunks : list lc_document) (w : world) :
  (forall i, outcome_at w i = Stored) ->
  Forall (fun c => is_Some (embed_query (page_content c))) chunks ->
  exists w' rows,
    add_chunks embed_query chunks w = (Val tt, w')
    /\ documents w' = (documents w ++ rows)%list
    /\ Forall2 (stored_as embed_query) chunks rows
    /\ (forall i, outcome_at w' i = Stored).
Proof.
  revert w. induction chunks as [|c rest IH]; intros w Hall Hemb.
  - exists w, []. rewrite app_nil_r. repeat split; auto.
  - inversion Hemb as [|? ? [e He] Hrest]; subst.
    cbn [add_chunks]. unfold bind at 1, call. rewrite He. cbn [ret].
    set (row := mkDocument _ _ _ _ _ _).
    assert (Hstep : exists w1,
      Supabase.insert (Supabase.add_document row) w = (Val true, w1)
      /\ documents w1 = (documents w ++ [row])%list
      /\ forall i, outcome_at w1 i = Stored).
    { unfold Supabase.insert, Supabase.next_outcome, bind, outcome_at in *.
      destruct w as [r d c1 sm ex sch t]. cbn in *.
      destruct sch as [|o sch].
      - eexists. split; [reflexivity|]. split; [reflexivity|]. exact Hall.
      - pose proof (Hall 0%nat) as H0. cbn in H0. subst o.
        eexists. split; [reflexivity|]. split; [reflexivity|].
        intros i. exact (Hall (S i)). }
    destruct Hstep as (w1 & Hins & Hdocs & Hall1).
    rewrite (bind_val _ _ _ _ _ Hins).
    destruct (IH w1 Hall1 Hrest) as (w' & rows & Hrun & Hd & Hf & Hall').
    exists w', (row :: rows). split; [exact Hrun|].
    split; [now rewrite Hd, Hdocs, <- app_assoc|].
    split; [|exact Hall'].
    constructor; [|exact Hf]. unfold stored_as. now cbn.
Qed.

Lemma add_chunks_app (a b : list lc_document) (w : world) :
  add_chunks embed_query (a ++ b) w
  = (add_chunks embed_query a ;;; add_chunks embed_query b) w.
Proof.
  revert w. induction a as [|c a IH]; intros w; [reflexivity|].
  cbn [app add_chunks]. unfold bind in *.
  destruct (call "embed_query" (embed_query (page_content c)) w)
    as [[e|x] w1]; [|reflexivity].
  destruct (Supabase.insert _ w1) as [[ok|x] w2]; [|reflexivity].
  apply IH.
Qed.

End IngestionFacts.

(** X17. When every embedding call and every insert goes through,
    [add_documents] returns True and appends one row per chunk of the split
    input, in order; the row has the chunk's text, metadata and embedding,
    and takes subject, difficulty level and content type from the chunk's
    metadata, with english, intermediate and lesson for missing keys. *)
Theorem add_documents_stores_every_chunk
        (embed_query : string -> option (list Q))
        (split_documents : list lc_document -> list lc_document)
        (docs : list lc_document) (w : world) :
  (forall i, outcome_at w i = Stored) ->
  Forall (fun c => is_Some (embed_query (page_content c)))
         (split_documents docs) ->
  exists w' rows,
    add_documents embed_query split_documents docs w = (Val true, w')
    /\ documents w' = (documents w ++ rows)%list
    /\ Forall2 (stored_as embed_query) (split_documents docs) rows.
Proof.
  intros Hall Hemb.
  destruct (add_chunks_all_stored embed_query (split_documents docs) w
              Hall Hemb) as (w' & rows & Hrun & Hd & Hf & _).
  exists w', rows. split; [|now split].
  unfold add_documents, try_except.
  now rewrite (bind_val _ _ _ _ _ Hrun).
Qed.

Lemma add_documents_stores_every_chunk_witness :
  (forall i, outcome_at empty_world i = Stored)
  /\ exists w' rows,
      add_documents fake_embed whole_documents [verbs_chunk; bare_chunk]
        empty_world = (Val true, w')
      /\ documents w' = rows
      /\ map doc_subject rows = ["english"; "english"]
      /\ map doc_difficulty_level rows = ["beginner"; "intermediate"]
      /\ map doc_content_type rows = ["lesson"; "lesson"].
Proof.
  assert (Hall : forall i, outcome_at empty_world i = Stored)
    by (intros [|[|i]]; reflexivity).
  assert (Hemb : Forall (fun c => is_Some (fake_embed (page_content c)))
                        (whole_documents [verbs_chunk; bare_chunk]))
    by (repeat constructor; eexists; reflexivity).
  split; [exact Hall|].
  destruct (add_documents_stores_every_chunk fake_embed whole_documents
              [verbs_chunk; bare_chunk] empty_world Hall Hemb)
    as (w' & rows & Hrun & Hd & Hf).
  exists w', rows. split; [exact Hrun|]. split; [exact Hd|].
  inversion Hf as [|c1 r1 ? rows1 (_ & _ & _ & S1 & L1 & T1) Hf1]; subst.
  inversion Hf1 as [|c2 r2 ? rows2 (_ & _ & _ & S2 & L2 & T2) Hf2]; subst.
  inversion Hf2; subst. cbn.
  rewrite S1, L1, T1, S2, L2, T2. repeat split.
Defined.

(** X18. [add_documents] is not atomic: when the embedding call fails on a
    chunk, it returns False, and the rows of all chunks before that one stay
    in the content store. *)
Theorem add_documents_keeps_rows_before_failure
        (embed_query : string -> option (list Q))
        (split_documents : list lc_document -> list lc_document)
        (docs good rest : list lc_document) (bad : lc_document) (w : world) :
  split_documents docs = (good ++ bad :: rest)%list ->
  (forall i, outcome_at w i = Stored) ->
  Forall (fun c => is_Some (embed_query (page_content c))) good ->
  embed_query (page_content bad) = None ->
  exists w' rows,
    add_documents embed_query split_documents docs w = (Val false, w')
    /\ documents w' = (documents w ++ rows)%list
    /\ Forall2 (stored_as embed_query) good rows.
Proof.
  intros Hsplit Hall Hgood Hbad.
  destruct (add_chunks_all_stored embed_query good w Hall Hgood)
    as (w' & rows & Hrun & Hd & Hf & _).
  exists w', rows. split; [|now split].
  unfold add_documents, try_except. rewrite Hsplit.
  unfold bind at 1. rewrite add_chunks_app.
  rewrite (bind_val _ _ _ _ _ Hrun).
  cbn [add_chunks]. unfold bind, call. now rewrite Hbad.
Qed.

Lemma add_documents_keeps_rows_before_failure_witness :
  let picky text :=
    if String.eqb text "Verbs describe actions." then Some [1%Q] else None in
  exists w' row,
    add_documents picky whole_documents [verbs_chunk; bare_chunk] empty_world
    = (Val false, w')
    /\ documents w' = [row]
    /\ doc_content row = "Verbs describe actions.".
Proof.
  cbv zeta.
  set (picky := fun text : string =>
         if String.eqb text "Verbs describe actions." then Some [1%Q]
         else None).
  assert (Hall : forall i, outcome_at empty_world i = Stored)
    by (intros [|[|i]]; reflexivity).
  assert (Hgood : Forall (fun c => is_Some (picky (page_content c)))
                         [verbs_chunk])
    by (repeat constructor; eexists; reflexivity).
  destruct (add_documents_keeps_rows_before_failure picky whole_documents
              [verbs_chunk; bare_chunk] [verbs_chunk] [] bare_chunk
              empty_world eq_refl Hall Hgood eq_refl)
    as (w' & rows & Hrun & Hd & Hf).
  inversion Hf as [|c1 r1 ? rows1 (C1 & _) Hf1]; subst.
  inversion Hf1; subst.
  exists w', r1. split; [exact Hrun|]. split; [exact Hd|exact C1].
Defined.

(** X19. Round trip through the content store: after [add_documents] has
    stored its chunks, a level-aware search that goes through, for the
    subject and level a chunk was stored under, returns that chunk's text,
    provided no more than five stored documents have that subject and
    level. *)
Theorem stored_chunk_is_found_by_search
        (embed_query : string -> option (list Q))
        (split_documents : list lc_document -> list lc_document)
        (docs : list lc_document) (c : lc_document)
        (query : string) (w : world) :
  (forall i, outcome_at w i = Stored) ->
  Forall (fun c => is_Some (embed_query (page_content c)))
         (split_documents docs) ->
  In c (split_documents docs) ->
  is_Some (embed_query query) ->
  let w' := snd (add_documents embed_query split_documents docs w) in
  let subject := default "english" (lc_metadata c !! "subject") in
  let level := default "intermediate" (lc_metadata c !! "difficulty_level") in
  (length (List.filter
             (fun d => String.eqb (doc_subject d) subject
                       && String.eqb (doc_difficulty_level d) level)
             (documents w')) <= 5)%nat ->
  exists results w'',
    search_by_difficulty embed_query query level subject w'
    = (Val results, w'')
    /\ In (page_content c) (map content results).
Proof.
  intros Hall Hemb Hc Hq. cbv zeta.
  destruct (add_chunks_all_stored embed_query (split_documents docs) w
              Hall Hemb) as (w' & rows & Hrun & Hd & Hf & Hall').
  assert (Hadd : add_documents embed_query split_documents docs w
                 = (Val true, w')).
  { unfold add_documents, try_except. now rewrite (bind_val _ _ _ _ _ Hrun). }
  rewrite Hadd. cbn [snd]. intros Hlen.
  destruct (hybrid_search_hits embed_query query
              (Some [("subject", default "english" (lc_metadata c !! "subject"));
                     ("difficulty_level",
                      default "intermediate"
                        (lc_metadata c !! "difficulty_level"))]) 5 w')
    as (hits & w'' & Hs & _ & _ & Hhits).
  exists (map snippet hits), w''. split; [exact Hs|].
  rewrite (Hhits Hq (Hall' 0%nat)), map_map. cbn [snippet content].
  assert (Hrow : exists row, In row rows /\ stored_as embed_query c row).
  { clear - Hf Hc. induction Hf as [|c0 r0 cs rs Hr _ IH]; [destruct Hc|].
    destruct Hc as [->|Hc].
    - exists r0. split; [now left|exact Hr].
    - destruct (IH Hc) as (row & Hin & Hrow). exists row.
      split; [now right|exact Hrow]. }
  destruct Hrow as (row & Hin & (Hcont & _ & _ & Hsub & Hlev & _)).
  rewrite <- Hcont. apply in_map.
  assert (Hext : forall l,
    List.filter
      (search_predicate
         (Some [("subject", default "english" (lc_metadata c !! "subject"));
                ("difficulty_level",
                 default "intermediate"
                   (lc_metadata c !! "difficulty_level"))])) l
    = List.filter
        (fun d => String.eqb (doc_subject d)
                    (default "english" (lc_metadata c !! "subject"))
                  && String.eqb (doc_difficulty_level d)
                       (default "intermediate"
                          (lc_metadata c !! "difficulty_level"))) l).
  { intros l. apply List.filter_ext. intros d. cbn. now rewrite andb_true_r. }
  rewrite Hext, List.firstn_all2 by exact Hlen.
  apply List.filter_In. split.
  - rewrite Hd. apply in_or_app. now right.
  - rewrite Hsub, Hlev, !String.eqb_refl. reflexivity.
Qed.

Lemma stored_chunk_is_found_by_search_witness :
  (forall i, outcome_at empty_world i = Stored)
  /\ In verbs_chunk (whole_documents [verbs_chunk; bare_chunk])
  /\ exists results w'',
      search_by_difficulty fake_embed "verbs" "beginner" "english"
        (snd (add_documents fake_embed whole_documents
                [verbs_chunk; bare_chunk] empty_world))
      = (Val results, w'')
      /\ In "Verbs describe actions." (map content results).
Proof.
  assert (Hall : forall i, outcome_at empty_world i = Stored)
    by (intros [|[|i]]; reflexivity).
  assert (Hemb : Forall (fun c => is_Some (fake_embed (page_content c)))
                        (whole_documents [verbs_chunk; bare_chunk]))
    by (repeat constructor; eexists; reflexivity).
  assert (Hc : In verbs_chunk (whole_documents [verbs_chunk; bare_chunk]))
    by (now left).
  assert (Hq : is_Some (fake_embed "verbs")) by (eexists; reflexivity).
  split; [exact Hall|]. split; [exact Hc|].
  apply (stored_chunk_is_found_by_search fake_embed whole_documents
           [verbs_chunk; bare_chunk] verbs_chunk "verbs" empty_world
           Hall Hemb Hc Hq).
  vm_compute. lia.
Defined.

(** ** Prompt assembly *)

Lemma string_length_app (a b : string) :
  String.length (a ++ b) = (String.length a + String.length b)%nat.
Proof.
  induction a as [|c a IH]; [reflexivity|].
  change (String c a ++ b) with (String c (a ++ b)). cbn. now rewrite IH.
Qed.

Lemma prefix_length (n : nat) (s : string) :
  (String.length (Py.prefix n s) <= n)%nat.
Proof.
  unfold Py.prefix. revert s. induction n as [|n IH]; intros s.
  - destruct s; cbn; lia.
  - destruct s as [|c s]; cbn; [lia|]. specialize (IH s). lia.
Qed.

Lemma context_line_length (r : scored_result) :
  (String.length (context_line r) <= 205)%nat.
Proof.
  unfold context_line. rewrite !string_length_app.
  pose proof (prefix_length 200 (content r)). cbn. lia.
Qed.

(** X20. [_build_context] looks at the first three results only and at the
    first 200 characters of each: results after the third do not change the
    text, and the text is never longer than 617 characters, however many and
    however long the retrieved documents are. *)
Theorem build_context_is_bounded
        (results : list scored_result) :
  _build_context results = _build_context (firstn 3 results)
  /\ (String.length (_build_context results) <= 617)%nat
  /\ (results <> [] ->
      _build_context results
      = Py.join Py.newline (map context_line (firstn 3 results))).
Proof.
  split; [|split].
  - destruct results as [|a [|b [|c [|d rest]]]]; reflexivity.
  - destruct results as [|a [|b [|c rest]]].
    + cbn. lia.
    + change (_build_context [a]) with (context_line a).
      pose proof (context_line_length a). lia.
    + change (_build_context [a; b])
        with (context_line a ++ Py.newline ++ context_line b).
      rewrite !string_length_app.
      pose proof (context_line_length a). pose proof (context_line_length b).
      cbn. lia.
    + change (_build_context (a :: b :: c :: rest))
        with (context_line a ++ Py.newline ++ context_line b
              ++ Py.newline ++ context_line c).
      rewrite !string_length_app.
      pose proof (context_line_length a). pose proof (context_line_length b).
      pose proof (context_line_length c). cbn. lia.
  - intros Hne. destruct results; [congruence|reflexivity].
Qed.

Lemma build_context_is_bounded_witness :
  [snippet lesson_nouns] <> []
  /\ _build_context [snippet lesson_nouns]
     = "- Nouns name people, places and things....".
Proof.
  assert (H : [snippet lesson_nouns] <> []) by discriminate.
  split; [exact H|].
  rewrite (proj2 (proj2 (build_context_is_bounded [snippet lesson_nouns])) H).
  reflexivity.
Defined.

Lemma recent_turns (h : list turn) :
  match h with
  | [] => []
  | _ => Py.last_n 6 h
  end = Py.last_n 6 h.
Proof. now destruct h. Qed.

(** X21. The response generated for a message depends on the session only
    through its difficulty level, its score, its interaction counter and the
    last six turns of its log: two sessions that agree on these get the same
    result for the same message and search results. *)
Theorem response_reads_last_six_turns
        (model : chat_messages -> option string) (prompts : TeachingPrompts)
        (message : string) (s1 s2 : session)
        (results : list scored_result) (w : world) :
  difficulty_level s1 = difficulty_level s2 ->
  proficiency_score s1 = proficiency_score s2 ->
  interaction_count s1 = interaction_count s2 ->
  Py.last_n 6 (conversation_history s1)
  = Py.last_n 6 (conversation_history s2) ->
  _generate_adaptive_response model prompts message s1 results w
  = _generate_adaptive_response model prompts message s2 results w.
Proof.
  intros Hl Hs Hc Hh. unfold _generate_adaptive_response.
  now rewrite !recent_turns, Hl, Hs, Hc, Hh.
Qed.

Lemma response_reads_last_six_turns_witness :
  let old := StudentTurn "first of many" 0 "beginner" 10 in
  let six := repeat (TeacherTurn "Go on." 1 "general_teaching" 0) 6 in
  let s1 := set_conversation_history six fresh_session in
  let s2 := set_conversation_history (old :: six) fresh_session in
  conversation_history s1 <> conversation_history s2
  /\ _generate_adaptive_response fake_model fake_prompts "hello" s1 []
       fresh_world
     = _generate_adaptive_response fake_model fake_prompts "hello" s2 []
         fresh_world.
Proof.
  cbv zeta. split; [discriminate|].
  apply response_reads_last_six_turns; reflexivity.
Defined.

(** ** Keyword rules *)

Lemma startswith_app (p s : string) : Py.startswith p (p ++ s) = true.
Proof.
  induction p as [|c p IH]; [reflexivity|].
  change (String c p ++ s) with (String c (p ++ s)).
  cbn. now rewrite Ascii.eqb_refl, IH.
Qed.

Lemma contains_app (needle a b : string) :
  Py.contains needle (a ++ needle ++ b) = true.
Proof.
  induction a as [|c a IH].
  - change ("" ++ needle ++ b) with (needle ++ b).
    destruct (needle ++ b) eqn:E; cbn; rewrite <- E, startswith_app;
      reflexivity.
  - change (String c a ++ needle ++ b) with (String c (a ++ needle ++ b)).
    cbn [Py.contains]. rewrite IH. apply orb_true_r.
Qed.

(** X22. From interaction counter 3 on, a message whose lower-cased text
    contains test, quiz, exam or practice anywhere, even inside a longer
    word and even together with a question mark or a farewell, is answered
    with the test_prep strategy. *)
Theorem test_keywords_match_inside_words
        (model : chat_messages -> option string) (prompts : TeachingPrompts)
        (message before keyword after : string) (s : session)
        (results : list scored_result) (w : world) (r : model_response) :
  3 <= interaction_count s ->
  In keyword ["test"; "quiz"; "exam"; "practice"] ->
  Py.lower message = before ++ keyword ++ after ->
  fst (_generate_adaptive_response model prompts message s results w) = Val r ->
  response_strategy r = "test_prep".
Proof.
  intros Hc Hk Hm Hrun.
  rewrite (generate_strategy model prompts message s results w r Hrun).
  unfold spec_strategy. apply Z.ltb_ge in Hc. rewrite Hc.
  assert (Hany : Py.any_in ["test"; "quiz"; "exam"; "practice"]
                   (Py.lower message) = true).
  { unfold Py.any_in. apply existsb_exists. exists keyword.
    split; [exact Hk|]. rewrite Hm. apply contains_app. }
  now rewrite Hany.
Qed.

Lemma test_keywords_match_inside_words_witness :
  let s3 := set_interaction_count 4 fresh_session in
  3 <= interaction_count s3
  /\ Py.lower "Is the CONTEST over? Bye" = "is the con" ++ "test" ++ " over? bye"
  /\ fst (_generate_adaptive_response fake_model fake_prompts
            "Is the CONTEST over? Bye" s3 [] fresh_world)
     = Val {| response_content := "Tell me more.";
              response_strategy := "test_prep" |}
  /\ response_strategy {| response_content := "Tell me more.";
                          response_strategy := "test_prep" |} = "test_prep".
Proof.
  cbv zeta.
  assert (Hc : 3 <= interaction_count (set_interaction_count 4 fresh_session))
    by (cbn; lia).
  assert (Hm : Py.lower "Is the CONTEST over? Bye"
               = "is the con" ++ "test" ++ " over? bye") by reflexivity.
  assert (Hrun : fst (_generate_adaptive_response fake_model fake_prompts
                        "Is the CONTEST over? Bye"
                        (set_interaction_count 4 fresh_session) []
                        fresh_world)
                 = Val {| response_content := "Tell me more.";
                          response_strategy := "test_prep" |})
    by (vm_compute; reflexivity).
  refine (conj Hc (conj Hm (conj Hrun _))).
  exact (test_keywords_match_inside_words fake_model fake_prompts
           "Is the CONTEST over? Bye" "is the con" "test" " over? bye"
           _ [] fresh_world _ Hc (or_introl eq_refl) Hm Hrun).
Defined.

(** ** Model selection *)

(** X23. [get_active_model] raises only if the OpenRouter client cannot be
    built. When it can, a client is always returned, also with no API key
    configured at all: the LearnLM client (cached or newly built) when
    LearnLM is preferred, a Google key is set and that client is available,
    and the OpenRouter client (cached or newly built) in every other case,
    in particular when building the LearnLM client fails. *)
Theorem get_active_model_falls_back
        (config : ModelManager.settings)
        (accepts : ModelManager.client -> bool)
        (prefer_learnlm : option bool) (self : ModelManager.manager) :
  accepts (openrouter_client config) = true ->
  let learnlm_available :=
    match ModelManager._learnlm_model self with
    | Some _ => true
    | None => accepts (learnlm_client config)
    end in
  exists c self',
    ModelManager.get_active_model config accepts prefer_learnlm self
    = (Val c, self')
    /\ c = (if wants_learnlm config prefer_learnlm && learnlm_available
            then default (learnlm_client config)
                         (ModelManager._learnlm_model self)
            else default (openrouter_client config)
                         (ModelManager._openrouter_model self)).
Proof.
  intros Ho. cbv zeta.
  unfold ModelManager.get_active_model, ModelManager.get_learnlm_model,
    ModelManager.get_openrouter_model, wants_learnlm.
  fold (learnlm_client config). fold (openrouter_client config).
  destruct self as [[l|] [o|]]; cbn;
    destruct (match prefer_learnlm with
              | Some b => b
              | None => ModelManager.truthy (ModelManager.PREFER_LEARNLM config)
              end);
    destruct (ModelManager.truthy (ModelManager.GOOGLE_API_KEY config));
    destruct (ModelManager.truthy (ModelManager.OPENROUTER_API_KEY config));
    cbn; rewrite ?Ho; try destruct (accepts (learnlm_client config));
    cbn; rewrite ?Ho; eauto.
Qed.

Lemma get_active_model_falls_back_witness :
  accepts_openrouter_only (openrouter_client no_keys) = true
  /\ accepts_openrouter_only (openrouter_client google_first) = true
  /\ (exists self',
         ModelManager.get_active_model no_keys accepts_openrouter_only None
           new_manager = (Val (openrouter_client no_keys), self'))
  /\ (exists self',
         ModelManager.get_active_model google_first accepts_openrouter_only
           None new_manager = (Val (openrouter_client google_first), self'))
  /\ fst (ModelManager.get_active_model google_first accepts_all None
            new_manager) = Val (learnlm_client google_first).
Proof.
  assert (H1 : accepts_openrouter_only (openrouter_client no_keys) = true)
    by reflexivity.
  assert (H2 : accepts_openrouter_only (openrouter_client google_first) = true)
    by reflexivity.
  split; [exact H1|]. split; [exact H2|]. split; [|split].
  - destruct (get_active_model_falls_back no_keys accepts_openrouter_only
                None new_manager H1) as (c & self' & Hrun & ->).
    now exists self'.
  - destruct (get_active_model_falls_back google_first
                accepts_openrouter_only None new_manager H2)
      as (c & self' & Hrun & ->).
    now exists self'.
  - reflexivity.
Defined.

(** X24. The clients are built once: after a call of [get_active_model] has
    returned a client, a second call with the same preference returns the
    same client and leaves the manager as it is. *)
Theorem get_active_model_is_memoized
        (config : ModelManager.settings)
        (accepts : ModelManager.client -> bool)
        (prefer_learnlm : option bool) (self self' : ModelManager.manager)
        (c : ModelManager.client) :
  ModelManager.get_active_model config accepts prefer_learnlm self
  = (Val c, self') ->
  ModelManager.get_active_model config accepts prefer_learnlm self'
  = (Val c, self').
Proof.
  unfold ModelManager.get_active_model, ModelManager.get_learnlm_model,
    ModelManager.get_openrouter_model.
  fold (learnlm_client config). fold (openrouter_client config).
  destruct self as [[l|] [o|]]; cbn;
    destruct (match prefer_learnlm with
              | Some b => b
              | None => ModelManager.truthy (ModelManager.PREFER_LEARNLM config)
              end);
    destruct (ModelManager.truthy (ModelManager.GOOGLE_API_KEY config));
    destruct (ModelManager.truthy (ModelManager.OPENROUTER_API_KEY config));
    cbn;
    try destruct (accepts (learnlm_client config)) eqn:Hl;
    try destruct (accepts (openrouter_client config)) eqn:Ho;
    cbn; intros H; inversion H; subst; cbn; rewrite ?Hl, ?Ho; reflexivity.
Qed.

Lemma get_active_model_is_memoized_witness :
  let first :=
    ModelManager.get_active_model google_first accepts_all None new_manager in
  first = (Val (learnlm_client google_first),
           ModelManager.mkManager (Some (learnlm_client google_first)) None)
  /\ ModelManager.get_active_model google_first accepts_all None (snd first)
     = first.
Proof.
  cbv zeta.
  assert (H : ModelManager.get_active_model google_first accepts_all None
                new_manager
              = (Val (learnlm_client google_first),
                 ModelManager.mkManager (Some (learnlm_client google_first))
                                        None)) by reflexivity.
  split; [exact H|]. rewrite H. cbn [snd].
  exact (get_active_model_is_memoized google_first accepts_all None
           new_manager _ _ H).
Defined.

(** ** Submissions with the templates of the repository *)

Lemma teaching_prompts_answer :
  prompts_answer_on Config.DIFFICULTY_LEVELS teaching_prompts.
Proof.
  intros level [<-|[<-|[<-|[]]]]; repeat split; eexists; reflexivity.
Qed.

Lemma level_of_in_levels (score : Z) (level : string) :
  level_of score level -> In level Config.DIFFICULTY_LEVELS.
Proof. intros []; cbn; auto. Qed.

Lemma build_conversation_context_lines (recent : list turn) :
  _build_conversation_context recent =
  match recent with
  | [] => "This is the beginning of the conversation."
  | _ => Py.join Py.newline (map conversation_line recent)
  end.
Proof. now destruct recent. Qed.

(** With a template at hand for the session's level, the response is what
    the model makes of the assembled messages. *)
Lemma generate_run
      (model : chat_messages -> option string) (prompts : TeachingPrompts)
      (message : string) (s : session) (results : list scored_result)
      (w : world) :
  prompts_answer_at prompts (difficulty_level s) ->
  exists p,
    _generate_adaptive_response model prompts message s results w
    = (match model (assembled p message s results) with
       | Some text =>
           Val {| response_content := text;
                  response_strategy :=
                    spec_strategy (interaction_count s) message |}
       | None => Exn "model"
       end, w).
Proof.
  intros ([p1 H1] & [p2 H2] & [p3 H3] & [p4 H4] & [p5 H5]).
  unfold _generate_adaptive_response, spec_strategy, bind, call, ret, raise,
    assembled.
  rewrite question_mark_lower, recent_turns, H1, H2, H3, H4, H5.
  repeat match goal with
         | |- context [if ?b then _ else _] => destruct b
         end; cbn;
    [exists p1 | exists p2 | exists p3 | exists p4 | exists p5];
    destruct (model _); reflexivity.
Qed.

(** The session that a submission works with after its proficiency update
    is at one of the three levels whenever the stored one is. *)
Lemma working_level_in_levels (message : string) (s : session) :
  In (difficulty_level s) Config.DIFFICULTY_LEVELS ->
  let delta := score_change (_analyze_proficiency message s) in
  In (difficulty_level (if delta =? 0 then s else rescored delta s))
     Config.DIFFICULTY_LEVELS.
Proof.
  intros Hl delta. destruct (delta =? 0); [exact Hl|].
  destruct (rescored_fields delta s) as (_ & Hlevel & _).
  exact (level_of_in_levels _ _ Hlevel).
Qed.



(** C9. A search never raises. It returns the empty list when no stored item
    matches the filters, when the store is empty, when the embedding call
    fails and when the content store fails; [_build_context] then yields the
    fixed no-context text. In a submission, after either failure, generation
    proceeds on the conversation alone: the model is handed that no-context
    text, the student's message and the lines made of the last six turns of
    the session's log (or the beginning-of-conversation text), and what the
    model returns becomes the reply, with a teacher turn that records zero
    snippets used. *)
Theorem search_soft_failure
        (embed_query : string -> option (list Q)) (query : string)
        (metadata_filters : option (list (string * string))) (limit : nat)
        (w : world) :
  (exists results w',
      hybrid_search embed_query query metadata_filters limit w
      = (Val results, w'))
  /\ (List.filter (search_predicate metadata_filters) (documents w) = [] ->
      fst (hybrid_search embed_query query metadata_filters limit w) = Val [])
  /\ (documents w = [] ->
      fst (hybrid_search embed_query query metadata_filters limit w) = Val [])
  /\ (embed_query query = None ->
      hybrid_search embed_query query metadata_filters limit w = (Val [], w))
  /\ (outcome_at w 0 = Unreachable ->
      fst (hybrid_search embed_query query metadata_filters limit w) = Val [])
  /\ _build_context [] = "No specific context found."
  /\ (forall model prompts sid s,
         embed_query query = None \/ outcome_at w 0 = Unreachable ->
         live w sid s -> session_status s = "active" ->
         In (difficulty_level s) Config.DIFFICULTY_LEVELS ->
         prompts_answer_on Config.DIFFICULTY_LEVELS prompts ->
         exists msgs,
           human_context msgs = "No specific context found."
           /\ human_recent_conversation msgs
              = match Py.last_n 6 (conversation_history s) with
                | [] => "This is the beginning of the conversation."
                | recent => Py.join Py.newline (map conversation_line recent)
                end
           /\ human_message msgs = query
           /\ (forall text,
                  model msgs = Some text ->
                  exists w' s' student t strategy level score count,
                    process_student_message embed_query model prompts
                      sid query w
                    = (Val (Reply text level score strategy sid count), w')
                    /\ live w' sid s'
                    /\ conversation_history s'
                       = (conversation_history s
                          ++ [student; TeacherTurn text t strategy 0])%list)
           /\ (model msgs = None ->
               exists w',
                 process_student_message embed_query model prompts
                   sid query w
                 = (Val (Error "Failed to process message"), w'))).
Proof.
  assert (Hnone : List.filter (search_predicate metadata_filters) (documents w)
                  = [] ->
                  fst (hybrid_search embed_query query metadata_filters limit w)
                  = Val []).
  { intros Hf. rewrite hybrid_search_run, Hf.
    destruct (embed_query query); [|reflexivity].
    rewrite firstn_nil. now destruct (schedule w) as [|[| |] rest]. }
  split; [|split; [exact Hnone|split; [|split; [|split; [|split]]]]].
  - destruct (hybrid_search_frame embed_query query metadata_filters limit w)
      as (results & sch & H). eauto.
  - intros Hd. apply Hnone. now rewrite Hd.
  - intros He. now rewrite hybrid_search_run, He.
  - unfold outcome_at. intros Ho. rewrite hybrid_search_run.
    destruct (embed_query query); [|reflexivity].
    destruct (schedule w) as [|[| |] rest]; cbn in *; congruence.
  - reflexivity.
  - intros model prompts sid s Hfail H Hs Hlevel Hp.
    destruct (process_trace embed_query model prompts w sid query s H Hs)
      as (results & sch & Hsearch & _ & Hrun).
    pose proof (working_level_in_levels query s Hlevel) as Hl0.
    cbv zeta in Hl0.
    set (delta := score_change (_analyze_proficiency query s)) in *.
    set (s0 := if delta =? 0 then s else rescored delta s) in *.
    set (w0 := if delta =? 0 then w else store sid s0 w) in *.
    assert (Hsch : schedule w0 = schedule w).
    { subst w0. now destruct (delta =? 0). }
    assert (Hempty : results = []).
    { unfold search_by_difficulty in Hsearch.
      rewrite hybrid_search_run in Hsearch.
      destruct Hfail as [He|Ho].
      - rewrite He in Hsearch. now injection Hsearch as <- _.
      - unfold outcome_at in Ho. rewrite Hsch in Hsearch.
        destruct (embed_query query);
          [|now injection Hsearch as <- _].
        destruct (schedule w) as [|[| |] rest]; cbn in Ho; try discriminate.
        now injection Hsearch as <- _. }
    subst results.
    assert (Hh0 : conversation_history s0 = conversation_history s).
    { subst s0. destruct (delta =? 0); [reflexivity|].
      now destruct (rescored_fields delta s) as (_ & _ & _ & -> & _). }
    destruct (generate_run model prompts query s0 []
                (with_schedule sch w0) (Hp _ Hl0)) as [p Hgen].
    exists (assembled p query s0 []).
    split; [reflexivity|]. split.
    { cbn [assembled human_recent_conversation]. rewrite Hh0.
      now destruct (Py.last_n 6 (conversation_history s)). }
    split; [reflexivity|]. split.
    + intros text Ht. rewrite Ht in Hgen. rewrite Hgen in Hrun.
      cbv zeta in Hrun. do 8 eexists. split; [exact Hrun|].
      split; [apply live_store|].
      cbn [appended set_interaction_count set_conversation_history
           conversation_history].
      now rewrite Hh0, <- app_assoc.
    + intros Ht. rewrite Ht in Hgen. rewrite Hgen in Hrun. eauto.
Qed.

Lemma search_soft_failure_witness :
  failing_embed "past tense" = None
  /\ hybrid_search failing_embed "past tense" None 5 library_world
     = (Val [], library_world)
  /\ List.filter (search_predicate (Some [("subject", "french")]))
       (documents library_world) = []
  /\ fst (hybrid_search axis_embed "past tense" (Some [("subject", "french")])
            5 library_world) = Val []
  /\ outcome_at outage_world 0 = Unreachable
  /\ fst (hybrid_search axis_embed "past tense" None 5 outage_world) = Val []
  /\ live outage_world "s1" fresh_session
  /\ exists msgs,
      human_context msgs = "No specific context found."
      /\ human_recent_conversation msgs
         = "This is the beginning of the conversation."
      /\ human_message msgs = "past tense"
      /\ fake_model msgs = Some "Tell me more."
      /\ exists w' s' student t strategy level score count,
          process_student_message axis_embed fake_model teaching_prompts
            "s1" "past tense" outage_world
          = (Val (Reply "Tell me more." level score strategy "s1" count), w')
          /\ live w' "s1" s'
          /\ conversation_history s'
             = [student; TeacherTurn "Tell me more." t strategy 0].
Proof.
  assert (He : failing_embed "past tense" = None) by reflexivity.
  assert (Hf : List.filter (search_predicate (Some [("subject", "french")]))
                 (documents library_world) = []) by reflexivity.
  assert (Ho : outcome_at outage_world 0 = Unreachable) by reflexivity.
  assert (Hl : live outage_world "s1" fresh_session)
    by (vm_compute; reflexivity).
  assert (Hlv : In (difficulty_level fresh_session) Config.DIFFICULTY_LEVELS)
    by (cbn; auto).
  assert (Hp : prompts_answer_on Config.DIFFICULTY_LEVELS teaching_prompts)
    by (intros level [<-|[<-|[<-|[]]]]; repeat split; eexists; reflexivity).
  refine (conj He (conj _ (conj Hf (conj _ (conj Ho (conj _ (conj Hl _))))))).
  - exact (proj1 (proj2 (proj2 (proj2
             (search_soft_failure failing_embed "past tense" None 5
                library_world)))) He).
  - exact (proj1 (proj2
             (search_soft_failure axis_embed "past tense"
                (Some [("subject", "french")]) 5 library_world)) Hf).
  - exact (proj1 (proj2 (proj2 (proj2 (proj2
             (search_soft_failure axis_embed "past tense" None 5
                outage_world))))) Ho).
  - destruct (proj2 (proj2 (proj2 (proj2 (proj2 (proj2
               (search_soft_failure axis_embed "past tense" None 5
                  outage_world))))))
                fake_model teaching_prompts "s1" fresh_session
                (or_intror Ho) Hl eq_refl Hlv Hp)
      as (msgs & Hc & Hr & Hm & Hreply & _).
    exists msgs. split; [exact Hc|]. split; [exact Hr|]. split; [exact Hm|].
    split; [reflexivity|]. exact (Hreply "Tell me more." eq_refl).
Defined.
